(** * android-exe-launcher: [make.py]

    A shallow embedding of [make.py], the script that locates or downloads
    an Android emulator system image, mounts it, copies the bionic runtime
    out of its APEX module and packages the result.

    The script is orchestration glue: every function is a short sequence
    of calls into the operating system and the Python standard library.
    The embedding therefore has three layers.

    - [Py] and [PyLib]: the deterministic part of the Python library that
      the script relies on ([os.path.join], f-string formatting of
      integers, [int()], [SectionProxy.get], [ZipFile.open]'s member
      lookup), modelled concretely.
    - [Platform]: the operating system, the network and the external
      tools, as an interface. Every call may return or raise whatever the
      platform decides; the theorems hold for every platform.
    - [Make]: the functions of [make.py], written in a state and
      exception monad over a platform, with a log of the calls made.

    [Sim] is one concrete, small platform, and [Scenario] a handful of
    machines on it, on which runs are evaluated. [Spec] holds the
    readings of the specification that the script does not follow, and
    [Trace] the vocabulary for logs. *)

From Stdlib Require Import ZArith String Ascii List Bool Lia DecimalString.
From stdpp Require Import base option gmap strings list.

Import ListNotations.
Local Open Scope string_scope.
Local Open Scope Z_scope.

(** ** Python values and library functions

    A Python [str] is modelled by a [string] whose characters are the
    code points of the text; text with a code point above 255 is outside
    the model. *)

Module Py.

(** Exceptions of the Python run raised on the paths of [make.py].
    [SystemExit] is what [sys.exit] raises; [OtherError] stands for any
    exception class that the script never names. *)
Inductive exn : Type :=
  | FileNotFoundError
  | FileExistsError
  | NotADirectoryError
  | PermissionError
  | OSError
  | KeyError (key : string)
  | ValueError
  | TypeError
  | UnboundLocalError (var : string)
  | InterpolationSyntaxError
  | InterpolationMissingOptionError (var : string)
  | InterpolationDepthError
  | ParsingError
  | URLError
  | SystemExit (code : Z)
  | OtherError (name : string).

#[global] Instance exn_eq_dec : EqDecision exn.
Proof. solve_decision. Defined.

(** The outcome of evaluating a Python expression or statement. *)
Inductive outcome (A : Type) : Type :=
  | Ret (a : A)
  | Raise (e : exn).
Arguments Ret {A} a.
Arguments Raise {A} e.

(** *** Strings *)

Definition startswith (pre s : string) : bool := String.prefix pre s.

Fixpoint endswith_sep (s : string) : bool :=
  match s with
  | EmptyString => false
  | String c EmptyString => Ascii.eqb c "/"
  | String _ rest => endswith_sep rest
  end.

(** [posixpath.join] for one more component: an absolute component
    replaces the path, otherwise it is appended after exactly one
    separator unless the path is empty or already ends in one. *)
Definition join2 (path b : string) : string :=
  if startswith "/" b then b
  else if (String.eqb path "" || endswith_sep path)%bool then path ++ b
  else path ++ "/" ++ b.

(** [os.path.join(a, *p)]. *)
Definition os_path_join (a : string) (p : list string) : string :=
  fold_left join2 p a.
Arguments os_path_join : simpl never.

(** [str(z)] for an integer, also what [f"{z}"] yields. *)
Definition str_of_int (z : Z) : string :=
  NilZero.string_of_int (Z.to_int z).

(** [f"{z:02d}"]: sign-aware zero padding to a minimum width of two. *)
Definition format_02d (z : Z) : string :=
  if (0 <=? z) && (z <? 10) then "0" ++ str_of_int z else str_of_int z.
Arguments str_of_int : simpl never.
Arguments format_02d : simpl never.

(** [str.lower], the default [optionxform] of [configparser], on code
    points below 256: the letters [A] to [Z] and the Latin-1 capitals
    (192 to 222 without the multiplication sign 215) move up by 32. *)
Definition lower_char (c : ascii) : ascii :=
  let n := nat_of_ascii c in
  if ((65 <=? n)%nat && (n <=? 90)%nat
      || (192 <=? n)%nat && (n <=? 222)%nat && negb (n =? 215)%nat)%bool
  then ascii_of_nat (n + 32) else c.

Fixpoint lower (s : string) : string :=
  match s with
  | EmptyString => EmptyString
  | String c rest => String (lower_char c) (lower rest)
  end.

(** *** [str.strip] *)

(** [str.isspace] on one code point below 256: tab to carriage return,
    the separators 28 to 31, the space, NEL (133) and the no-break space
    (160). *)
Definition is_space (c : ascii) : bool :=
  let n := nat_of_ascii c in
  ((9 <=? n)%nat && (n <=? 13)%nat || (28 <=? n)%nat && (n <=? 32)%nat
   || (n =? 133)%nat || (n =? 160)%nat)%bool.

Fixpoint lstrip (s : string) : string :=
  match s with
  | String c rest => if is_space c then lstrip rest else s
  | EmptyString => EmptyString
  end.

Fixpoint rstrip (s : string) : string :=
  match s with
  | EmptyString => EmptyString
  | String c rest =>
      match rstrip rest with
      | EmptyString => if is_space c then EmptyString else String c EmptyString
      | r => String c r
      end
  end.

Definition strip (s : string) : string := rstrip (lstrip s).

(** *** [int()] *)

(** CPython's [int(s)] for a [str] in base ten, in its three steps.

    First the text is made ASCII: a code point below 127 stays, a
    non-ASCII space (NEL and the no-break space, below 256) becomes a
    space, and at any other code point the text is cut with a [?], which
    no later step accepts. Then the C parser reads it: white space of
    the C locale (tab to carriage return, and the space; the separators
    28 to 31 are none), an optional sign, decimal digits in which single
    underscores may stand between two digits, and white space to the end.
    Last, a text with more digits than [sys.int_info.default_max_str_digits]
    is refused; leading zeros count, underscores and the sign do not.
    Whatever is not accepted is a [ValueError]. *)
Definition is_c_space (c : ascii) : bool :=
  let n := nat_of_ascii c in
  ((9 <=? n)%nat && (n <=? 13)%nat || (n =? 32)%nat)%bool.

Definition is_latin1_space (c : ascii) : bool :=
  let n := nat_of_ascii c in
  ((n =? 133)%nat || (n =? 160)%nat)%bool.

Fixpoint to_ascii_text (s : string) : string :=
  match s with
  | EmptyString => EmptyString
  | String c rest =>
      if (nat_of_ascii c <? 127)%nat then String c (to_ascii_text rest)
      else if is_latin1_space c then String " " (to_ascii_text rest)
      else "?"
  end.

Fixpoint skip_c_space (s : string) : string :=
  match s with
  | String c rest => if is_c_space c then skip_c_space rest else s
  | EmptyString => EmptyString
  end.

Fixpoint only_c_space (s : string) : bool :=
  match s with
  | String c rest => (is_c_space c && only_c_space rest)%bool
  | EmptyString => true
  end.

Definition digit_of (c : ascii) : option Z :=
  let n := nat_of_ascii c in
  if ((48 <=? n)%nat && (n <=? 57)%nat)%bool then Some (Z.of_nat n - 48) else None.

(** [digits acc count prev_digit s] reads the run of digits and
    underscores at the head of [s]: the value read after [acc], the
    number of digits counted after [count], and the text that follows the
    run. [prev_digit] says whether the previous character was a digit: an
    underscore needs one on its left, and the run must end on one. *)
Fixpoint digits (acc : Z) (count : nat) (prev_digit : bool) (s : string)
    : option (Z * nat * string) :=
  match s with
  | EmptyString => if prev_digit then Some (acc, count, EmptyString) else None
  | String c rest =>
      match digit_of c with
      | Some d => digits (10 * acc + d) (S count) true rest
      | None =>
          if Ascii.eqb c "_" then
            if prev_digit then digits acc count false rest else None
          else if prev_digit then Some (acc, count, s) else None
      end
  end.

Definition default_max_str_digits : nat := 4300.

(** What follows the white space at the head: the sign, if any, and the
    text after it. *)
Definition split_sign (s : string) : bool * string :=
  match s with
  | String c rest =>
      if Ascii.eqb c "-" then (true, rest)
      else if Ascii.eqb c "+" then (false, rest)
      else (false, s)
  | EmptyString => (false, s)
  end.

Definition int_of_str (s : string) : option Z :=
  let '(negative, body) := split_sign (skip_c_space (to_ascii_text s)) in
  match digits 0 0 false body with
  | Some (v, count, rest) =>
      if ((count <=? default_max_str_digits)%nat && only_c_space rest)%bool
      then Some (if negative then - v else v)
      else None
  | None => None
  end.

(** A value as [prop.get(key, fallback)] can return it in [make.py]: the
    integer fallback [0] or a string from the properties. *)
Inductive value : Type :=
  | VInt (z : Z)
  | VStr (s : string).

(** [int(v)]. *)
Definition int (v : value) : outcome Z :=
  match v with
  | VInt z => Ret z
  | VStr s =>
      match int_of_str s with
      | Some z => Ret z
      | None => Raise ValueError
      end
  end.

End Py.

(** ** [configparser] section proxies and [zipfile] archives *)

Module PyLib.
Import Py.

(** What [prop['root']] denotes after [read_file]: the options of the
    section and the parser's defaults, both keyed by lower-cased option
    names ([optionxform]); lookups consult the section first. *)
Record SectionProxy : Type := {
  section : gmap string string;
  defaults : gmap string string
}.

Definition chain_lookup (p : SectionProxy) (k : string) : option string :=
  match section p !! k with
  | Some v => Some v
  | None => defaults p !! k
  end.

Fixpoint contains_percent (s : string) : bool :=
  match s with
  | EmptyString => false
  | String c rest => (Ascii.eqb c "%" || contains_percent rest)%bool
  end.

(** The match of [%\(([^)]+)\)s] on the text that follows ["%("]: the
    name up to the first [")"], which must be followed by ["s"]. *)
Fixpoint split_key (s : string) : option (string * string) :=
  match s with
  | EmptyString => None
  | String c r =>
      if Ascii.eqb c ")" then
        match r with
        | String c' r' => if Ascii.eqb c' "s" then Some (EmptyString, r') else None
        | EmptyString => None
        end
      else
        match split_key r with
        | Some (n, r') => Some (String c n, r')
        | None => None
        end
  end.

Definition key_match (s : string) : option (string * string) :=
  match split_key s with
  | Some (EmptyString, _) => None
  | r => r
  end.

Definition omap2 (x : outcome string) (k : string → outcome string) : outcome string :=
  match x with
  | Ret a => k a
  | Raise e => Raise e
  end.

(** The [while rest:] loop of [BasicInterpolation._interpolate_some];
    [nested] interpolates a referenced value one level deeper. *)
Fixpoint interpolate_loop (nested : string → outcome string)
    (map : string → option string) (fuel : nat) (rest : string) : outcome string :=
  match fuel, rest with
  | O, _ => Ret EmptyString
  | _, EmptyString => Ret EmptyString
  | S fuel', String c r =>
      if Ascii.eqb c "%" then
        match r with
        | String c' r' =>
            if Ascii.eqb c' "%" then
              omap2 (interpolate_loop nested map fuel' r') (fun t => Ret (String "%" t))
            else if Ascii.eqb c' "(" then
              match key_match r' with
              | Some (name, r'') =>
                  match map (lower name) with
                  | None => Raise (InterpolationMissingOptionError (lower name))
                  | Some v =>
                      omap2 (if contains_percent v then nested v else Ret v) (fun x =>
                      omap2 (interpolate_loop nested map fuel' r'') (fun t =>
                      Ret (x ++ t)))
                  end
              | None => Raise InterpolationSyntaxError
              end
            else Raise InterpolationSyntaxError
        | EmptyString => Raise InterpolationSyntaxError
        end
      else omap2 (interpolate_loop nested map fuel' r) (fun t => Ret (String c t))
  end.

(** [_interpolate_some] with [levels] nesting levels left before
    [MAX_INTERPOLATION_DEPTH] is exceeded. *)
Fixpoint interpolate_some (levels : nat) (map : string → option string)
    (rest : string) : outcome string :=
  match levels with
  | O => Raise InterpolationDepthError
  | S levels' =>
      interpolate_loop (interpolate_some levels' map) map (S (String.length rest)) rest
  end.

Definition MAX_INTERPOLATION_DEPTH : nat := 10.

(** [BasicInterpolation.before_get]. *)
Definition before_get (map : string → option string) (v : string) : outcome string :=
  interpolate_some MAX_INTERPOLATION_DEPTH map v.

(** The object that [load_source_properties] returns: the dict literal
    [{}] or the section proxy. *)
Inductive props : Type :=
  | Dict (d : gmap string value)
  | Proxy (p : SectionProxy).

(** [prop.get(key, fallback)]. A dict looks the key up as it is; a
    section proxy lower-cases it, looks it up in section then defaults,
    and interpolates the value found. *)
Definition get (prop : props) (key : string) (fallback : value) : outcome value :=
  match prop with
  | Dict d => Ret (default fallback (d !! key))
  | Proxy p =>
      match chain_lookup p (lower key) with
      | None => Ret fallback
      | Some v =>
          match before_get (chain_lookup p) v with
          | Ret s => Ret (VStr s)
          | Raise e => Raise e
          end
      end
  end.

(** Whether [key] is present in the mapping, as [get] sees it. *)
Definition has_key (prop : props) (key : string) : bool :=
  match prop with
  | Dict d => bool_decide (is_Some (d !! key))
  | Proxy p => bool_decide (is_Some (chain_lookup p (lower key)))
  end.

(** An opened [zipfile.ZipFile]: the archive's file name and its
    members by name, each with its decoded text. *)
Record ZipFile : Type := {
  zip_filename : string;
  zip_members : gmap string string
}.

(** [zip.open(name, 'r')]: [getinfo] raises [KeyError] for a name that
    is not in the archive. *)
Definition ZipFile_open (z : ZipFile) (name : string) : outcome string :=
  match zip_members z !! name with
  | Some text => Ret text
  | None => Raise (KeyError name)
  end.

End PyLib.

(** ** The platform and the monad of script runs *)

Module Platform.
Import Py PyLib.

(** The parsed command line, [argparse.Namespace]: [--sdk] (absent is
    [None]), [--abi], [--api], [--rev], [--dir], [--version]. *)
Record Namespace : Type := {
  arg_sdk : option string;
  arg_abi : string;
  arg_api : Z;
  arg_rev : Z;
  arg_dir : string;
  arg_version : Z
}.

(** Assignments to attributes of [args]. *)
Definition set_sdk (args : Namespace) (v : option string) : Namespace :=
  {| arg_sdk := v; arg_abi := arg_abi args; arg_api := arg_api args;
     arg_rev := arg_rev args; arg_dir := arg_dir args; arg_version := arg_version args |}.

Definition set_dir (args : Namespace) (v : string) : Namespace :=
  {| arg_sdk := arg_sdk args; arg_abi := arg_abi args; arg_api := arg_api args;
     arg_rev := arg_rev args; arg_dir := v; arg_version := arg_version args |}.

Definition set_rev (args : Namespace) (v : Z) : Namespace :=
  {| arg_sdk := arg_sdk args; arg_abi := arg_abi args; arg_api := arg_api args;
     arg_rev := v; arg_dir := arg_dir args; arg_version := arg_version args |}.

(** The calls that leave the interpreter, as the log records them. *)
Inductive call : Type :=
  | Makedirs (path : string) (exist_ok : bool)
  | Rmdir (path : string)
  | Copy2 (src dst : string)
  | Open (path mode : string)
  | Run (argv : list string) (cwd : option string)
  | UrlOpen (url : string)
  | CopyFileObj (url path : string)
  | OpenZip (package : string)
  | ZipExtract (package member path : string)
  | MkTemp
  | Cleanup (tempdir : string)
  | RunExtract (apex dest debugfs_path : string)
  | ReadText (parent name : string)
  | WriteText (parent name text : string)
  | PrintLine (msg : string).

#[global] Instance call_eq_dec : EqDecision call.
Proof. solve_decision. Defined.

(** One log entry: the call and the exception it raised, if any. *)
Record event : Type := Ev {
  ev_call : call;
  ev_raised : option exn
}.

#[global] Instance event_eq_dec : EqDecision event.
Proof. solve_decision. Defined.

(** What the script needs from its surroundings. [W] is the state of
    the world. Queries read it; actions may change it and may raise.
    Nothing is assumed about any of them. The last two fields are pure
    library code kept abstract: [configparser_root text] is
    [prop['root']] after [prop.read_file] of the line ['[root]'] followed
    by the lines of [text], and [str_format t args] is [t.format] applied to the
    attributes of [args] as keyword arguments. *)
Class Platform (W : Type) : Type := {
  plat_getenv : string → W → option string;
  plat_abspath : string → W → string;
  plat_isfile : string → W → bool;
  plat_isdir : string → W → bool;
  plat_script_dir : W → string;
  plat_makedirs : string → bool → W → outcome unit * W;
  plat_rmdir : string → W → outcome unit * W;
  plat_copy2 : string → string → W → outcome unit * W;
  plat_open_read : string → W → outcome string * W;
  plat_open_write : string → string → W → outcome unit * W;
  plat_run : list string → option string → W → outcome Z * W;
  plat_urlopen : string → W → outcome unit * W;
  plat_copyfileobj : string → string → W → outcome unit * W;
  plat_ZipFile : string → W → outcome ZipFile * W;
  plat_extract : ZipFile → string → string → W → outcome string * W;
  plat_mkdtemp : W → outcome string * W;
  plat_cleanup : string → W → outcome unit * W;
  plat_RunExtract : string → string → string → W → outcome unit * W;
  plat_read_text : string → string → W → outcome string * W;
  plat_write_text : string → string → string → W → outcome unit * W;
  configparser_root : string → outcome SectionProxy;
  str_format : string → Namespace → outcome string
}.

Section Monad.
Context {W : Type}.

(** The state of a run: the world and the calls made so far, oldest
    first. *)
Record state : Type := St {
  world : W;
  log : list event
}.

Definition M (A : Type) : Type := state → outcome A * state.

Definition ret {A} (a : A) : M A := fun s => (Ret a, s).

Definition raise {A} (e : exn) : M A := fun s => (Raise e, s).

Definition bind {A B} (m : M A) (k : A → M B) : M B :=
  fun s =>
    match m s with
    | (Ret a, s') => k a s'
    | (Raise e, s') => (Raise e, s')
    end.

(** A pure library result enters the run as it is. *)
Definition lift {A} (o : outcome A) : M A := fun s => (o, s).

(** A query reads the world and leaves no log entry. *)
Definition query {A} (f : W → A) : M A := fun s => (Ret (f (world s)), s).

Definition raised {A} (o : outcome A) : option exn :=
  match o with
  | Ret _ => None
  | Raise e => Some e
  end.

(** An action runs against the world and is logged with its outcome. *)
Definition act {A} (c : call) (f : W → outcome A * W) : M A :=
  fun s =>
    let '(o, w') := f (world s) in
    (o, St w' (log s ++ [Ev c (raised o)])).

(** [try: body finally: final]. The final block runs after the body
    however the body ended; an exception of the final block replaces the
    body's outcome. *)
Definition try_finally {A} (body : M A) (final : M unit) : M A :=
  fun s =>
    let '(o, s1) := body s in
    match final s1 with
    | (Ret _, s2) => (o, s2)
    | (Raise e, s2) => (Raise e, s2)
    end.

(** [try: body except FileNotFoundError: handler]. *)
Definition try_except_FileNotFoundError {A} (body handler : M A) : M A :=
  fun s =>
    match body s with
    | (Raise FileNotFoundError, s1) => handler s1
    | r => r
    end.

(** Reading a local variable: [None] is a name that no statement has
    bound yet on the path taken. *)
Definition local {A} (name : string) (v : option A) : M A :=
  match v with
  | Some a => ret a
  | None => raise (UnboundLocalError name)
  end.

(** [for f in files: body f]. *)
Fixpoint for_each {A} (files : list A) (body : A → M unit) : M unit :=
  match files with
  | [] => ret ()
  | f :: rest => bind (body f) (fun _ => for_each rest body)
  end.

End Monad.

Arguments state W : clear implicits.
Arguments M W A : clear implicits.

Notation "x <- c1 ;; c2" := (bind c1 (fun x => c2))
  (at level 100, c1 at next level, right associativity).
Notation "c1 ;; c2" := (bind c1 (fun _ => c2))
  (at level 100, right associativity).

End Platform.

(** ** The functions of [make.py] *)

Module Make.
Import Py PyLib Platform.

(** The first argument of [load_source_properties]: the module
    [__builtins__], whose [open] is the built-in one, or an opened zip
    archive. *)
Inductive module : Type :=
  | builtins
  | archive (z : ZipFile).

Section Script.
Context {W : Type} `{Platform W}.

(** *** The calls the script makes, logged in the run *)

Definition os_getenv (name : string) : M W (option string) := query (plat_getenv name).
Definition os_path_abspath (path : string) : M W string := query (plat_abspath path).
Definition os_path_isfile (path : string) : M W bool := query (plat_isfile path).
Definition os_path_isdir (path : string) : M W bool := query (plat_isdir path).
Definition script_dir : M W string := query plat_script_dir.

Definition os_makedirs (path : string) (exist_ok : bool) : M W unit :=
  act (Makedirs path exist_ok) (plat_makedirs path exist_ok).
Definition os_rmdir (path : string) : M W unit :=
  act (Rmdir path) (plat_rmdir path).
Definition shutil_copy2 (src dst : string) : M W unit :=
  act (Copy2 src dst) (plat_copy2 src dst).
Definition open_read (path : string) : M W string :=
  act (Open path "r") (plat_open_read path).
Definition open_write (path mode : string) : M W unit :=
  act (Open path mode) (plat_open_write path mode).
Definition subprocess_run (argv : list string) (cwd : option string) : M W Z :=
  act (Run argv cwd) (plat_run argv cwd).
Definition urllib_request_urlopen (url : string) : M W unit :=
  act (UrlOpen url) (plat_urlopen url).
Definition shutil_copyfileobj (url path : string) : M W unit :=
  act (CopyFileObj url path) (plat_copyfileobj url path).
Definition zipfile_ZipFile (package : string) : M W ZipFile :=
  act (OpenZip package) (plat_ZipFile package).
Definition tempfile_TemporaryDirectory : M W string :=
  act MkTemp plat_mkdtemp.
Definition TemporaryDirectory_cleanup (tempdir : string) : M W unit :=
  act (Cleanup tempdir) (plat_cleanup tempdir).
Definition deapexer_RunExtract (apex dest debugfs_path : string) : M W unit :=
  act (RunExtract apex dest debugfs_path) (plat_RunExtract apex dest debugfs_path).
Definition Path_read_text (parent name : string) : M W string :=
  act (ReadText parent name) (plat_read_text parent name).
Definition Path_write_text (parent name text : string) : M W unit :=
  act (WriteText parent name text) (plat_write_text parent name text).
Definition print (msg : string) : M W unit :=
  act (PrintLine msg) (fun w => (Ret (), w)).
Definition sys_exit {A} (code : Z) : M W A := raise (SystemExit code).

(** [zip.extract(member, path)]: [getinfo] first, then the platform
    writes the member and returns the path written. *)
Definition zip_extract (z : ZipFile) (member path : string) : M W string :=
  match zip_members z !! member with
  | None => raise (KeyError member)
  | Some _ => act (ZipExtract (zip_filename z) member path) (plat_extract z member path)
  end.

(** [mod.open(path, 'r')]. *)
Definition mod_open (mod_ : module) (path : string) : M W string :=
  match mod_ with
  | builtins => open_read path
  | archive z => lift (ZipFile_open z path)
  end.

(** *** Lines 26-56 *)

Definition cpy (dst src : string) (files : list string) : M W unit :=
  os_makedirs dst true ;;
  for_each files (fun f => shutil_copy2 (os_path_join src [f]) dst).

Definition copy_from_apex (src dst : string) : M W unit :=
  cpy (os_path_join dst ["bin"])
      (os_path_join src ["bin"])
      ["linker64"] ;;
  cpy (os_path_join dst ["lib64"])
      (os_path_join src ["lib64"; "bionic"])
      ["libc.so"; "libm.so"; "libdl.so"].

(** The [with] block leaves through [TemporaryDirectory.__exit__],
    which cleans the directory up and lets an exception pass. *)
Definition extract_apex_and_copy (apex dst : string) : M W unit :=
  tempdir <- tempfile_TemporaryDirectory ;;
  try_finally
    (deapexer_RunExtract apex tempdir "/usr/sbin/debugfs" ;;
     copy_from_apex tempdir dst)
    (TemporaryDirectory_cleanup tempdir).

Definition copy_from_img (src dst : string) : M W unit :=
  let linkerconfig := os_path_join dst ["linkerconfig"] in
  os_makedirs linkerconfig true ;;
  open_write (os_path_join linkerconfig ["ld.config.txt"]) "ba".

(** *** Lines 59-73 *)

Definition mount_argv (img tempdir : string) : list string :=
  ["sudo"; "mount"; "-o"; "loop,ro,offset=" ++ str_of_int (512 * 2048 * 3); img; tempdir].

Definition umount_argv (tempdir : string) : list string :=
  ["sudo"; "umount"; tempdir].

(** The statements of the [try] block after [tempdir] and [mkdir] are
    bound. *)
Definition mount_body (img dst tempdir : string) (mkdir : bool) : M W unit :=
  (if mkdir then os_makedirs tempdir false else ret ()) ;;
  subprocess_run (mount_argv img tempdir) None ;;
  copy_from_img tempdir dst ;;
  extract_apex_and_copy
    (os_path_join tempdir ["system"; "apex"; "com.android.runtime.apex"])
    (os_path_join dst ["system"]).

(** The [finally] block. *)
Definition mount_final (tempdir : string) (mkdir : bool) : M W unit :=
  subprocess_run (umount_argv tempdir) None ;;
  (if mkdir then os_rmdir tempdir else ret ()).

(** [tempdir] and [mkdir] are bound by the first two statements of the
    [try] block; neither [os.path.join] nor [os.path.isdir] raises, so
    both names are bound when the [finally] block reads them. *)
Definition mount_img_and_copy (img dst : string) : M W unit :=
  let tempdir := os_path_join dst ["mount"] in
  isdir <- os_path_isdir tempdir ;;
  let mkdir := negb isdir in
  try_finally (mount_body img dst tempdir mkdir) (mount_final tempdir mkdir).

(** *** Lines 76-115 *)

Definition load_source_properties (mod_ : module) (dir : string) : M W props :=
  try_except_FileNotFoundError
    (lines <- mod_open mod_ (os_path_join dir ["source.properties"]) ;;
     root <- lift (configparser_root lines) ;;
     ret (Proxy root))
    (ret (Dict ∅)).

(** [int(prop.get('Pkg.Revision', 0))]. *)
Definition revision (prop : props) : outcome Z :=
  match get prop "Pkg.Revision" (VInt 0) with
  | Ret v => int v
  | Raise e => Raise e
  end.

Definition system_image_dir (sdk abi : string) (api : Z) : string :=
  os_path_join sdk ["system-images"; "android-" ++ str_of_int api; "google_apis"; abi].

Definition lookup_system_image (sdk abi : string) (api : Z) : M W (option string * Z) :=
  let dir := system_image_dir sdk abi api in
  prop <- load_source_properties builtins dir ;;
  rev <- lift (revision prop) ;;
  let img := os_path_join dir ["system.img"] in
  isfile <- os_path_isfile img ;;
  ret (if isfile then Some img else None, rev).

Definition package_filename (abi : string) (api rev : Z) : string :=
  abi ++ "-" ++ str_of_int api ++ "_r" ++ format_02d rev ++ ".zip".

Definition package_url (filename : string) : string :=
  "http://dl.google.com/android/repository/sys-img/google_apis/" ++ filename.

(** [with urlopen(url) as response, open(path, 'wb') as output:
    copyfileobj(response, output)]. *)
Definition fetch (url path : string) : M W unit :=
  urllib_request_urlopen url ;;
  open_write path "wb" ;;
  shutil_copyfileobj url path.

Definition download_system_package (dir abi : string) (api rev : Z) : M W string :=
  let filename := package_filename abi api rev in
  let path := os_path_join dir [filename] in
  isfile <- os_path_isfile path ;;
  (if negb isfile then fetch (package_url filename) path else ret ()) ;;
  ret path.

(** [img] holds a string on both ways into line 113, so its test
    [img is not None] passes and [os.path.isfile] decides. *)
Definition extract_system_package (package abi dst : string) : M W (option string * Z) :=
  z <- zipfile_ZipFile package ;;
  prop <- load_source_properties (archive z) abi ;;
  rev <- lift (revision prop) ;;
  let img := os_path_join dst [abi; "system.img"] in
  img <- (if negb (rev =? 0) then
            isfile <- os_path_isfile img ;;
            if negb isfile then zip_extract z (os_path_join abi ["system.img"]) dst
            else ret img
          else ret img) ;;
  isfile <- os_path_isfile img ;;
  ret (if isfile then Some img else None, rev).

(** *** Lines 117-177: [main]

    [main] takes the namespace that [parser.parse_args(argv)] returns. *)

(** Lines 127-130. [os.getenv] returns [None] for a variable that is not
    set and the value, whatever it is, for one that is. *)
Definition resolve_sdk (args : Namespace) : M W Namespace :=
  args <- (match arg_sdk args with
           | None => v <- os_getenv "ANDROID_SDK_HOME" ;; ret (set_sdk args v)
           | Some _ => ret args
           end) ;;
  match arg_sdk args with
  | None => v <- os_getenv "ANDROID_SDK_ROOT" ;; ret (set_sdk args v)
  | Some _ => ret args
  end.

Definition is_None {A} (v : option A) : bool :=
  match v with
  | None => true
  | Some _ => false
  end.

(** Lines 134-143. The first component of the result is the local
    variable [img] after the block: [None] when no statement has bound
    it, [Some v] when it holds the Python value [v]. *)
Definition lookup_in_sdk (args : Namespace) : M W (option (option string) * Namespace) :=
  match arg_sdk args with
  | Some sdk =>
      found <- lookup_system_image sdk (arg_abi args) (arg_api args) ;;
      let '(img, rev) := found in
      img <- (if (rev =? 0) || is_None img then
                print ("No system image " ++ arg_abi args ++ " android-"
                       ++ str_of_int (arg_api args) ++ " in SDK") ;;
                ret None
              else if negb (arg_rev args =? 0) && negb (arg_rev args =? rev) then
                print ("Required system image revision is " ++ str_of_int (arg_rev args)
                       ++ " but " ++ str_of_int rev ++ " in SDK") ;;
                ret None
              else ret img) ;;
      ret (Some img, if is_None img then args else set_rev args rev)
  | None => ret (None, args)
  end.

(** Lines 151-158, entered when [img is None]; the image path on
    success. *)
Definition download_and_extract (args : Namespace) (ver : string) : M W string :=
  print "Downloading package..." ;;
  package <- download_system_package (arg_dir args) (arg_abi args) (arg_api args) (arg_rev args) ;;
  print "Extracting package..." ;;
  extracted <- extract_system_package package (arg_abi args)
                 (os_path_join (arg_dir args) ["android-" ++ ver]) ;;
  let '(img, rev) := extracted in
  match img with
  | Some path =>
      if negb (arg_rev args =? rev) then
        print "Download/Extract system package failed" ;; sys_exit 1
      else ret path
  | None => print "Download/Extract system package failed" ;; sys_exit 1
  end.

Definition nuget_url : string :=
  "https://dist.nuget.org/win-x86-commandline/latest/nuget.exe".

(** Lines 165-177. *)
Definition generate_package (args : Namespace) (dst : string) : M W unit :=
  if 0 <=? arg_version args then
    print "Generating NuGet package..." ;;
    src <- script_dir ;;
    for_each ["README.md"; "android-exe-launcher.nuspec"] (fun f =>
      template <- Path_read_text src f ;;
      text <- lift (str_format template args) ;;
      Path_write_text dst f text) ;;
    let nuget := os_path_join (arg_dir args) ["nuget.exe"] in
    isfile <- os_path_isfile nuget ;;
    (if negb isfile then fetch nuget_url nuget else ret ()) ;;
    subprocess_run ["wine64"; nuget; "pack"] (Some dst) ;;
    ret ()
  else ret ().

Definition main (args : Namespace) : M W unit :=
  args <- resolve_sdk args ;;
  dir <- os_path_abspath (arg_dir args) ;;
  let args := set_dir args dir in
  looked <- lookup_in_sdk args ;;
  let '(img_local, args) := looked in
  img <- local "img" img_local ;;
  (if is_None img && (arg_rev args =? 0) then
     print "Please provide system image revision number to download" ;; sys_exit 1
   else ret ()) ;;
  let ver := str_of_int (arg_api args) ++ "_r" ++ format_02d (arg_rev args) in
  img <- (match img with
          | None => download_and_extract args ver
          | Some path => ret path
          end) ;;
  let dst := os_path_join (arg_dir args) ["android-" ++ ver; arg_abi args] in
  print "Mounting image and copying..." ;;
  mount_img_and_copy img dst ;;
  print ("Successfully copied to " ++ dst) ;;
  generate_package args dst.

End Script.
End Make.

(** ** A simulated platform

    A small in-memory world on which the script can be run: a flat file
    system keyed by path strings, an environment, a table of URLs, and
    toy versions of [mount], [umount] and the APEX extractor. Paths are
    compared as strings; the simulated parser reads one [key=value]
    option per line. *)

Module Sim.
Import Py PyLib Platform.

(** What a file holds. *)
#[local] Unset Elimination Schemes.
Inductive node : Type :=
  | Text (s : string)
  | Zip (members : list (string * node))
  | Image (tree : list (string * node))
  | Apex (tree : list (string * node)).
#[local] Set Elimination Schemes.

Record machine : Type := {
  environ : list (string * string);
  cwd : string;
  script : string;
  files : list (string * node);
  dirs : list string;
  mounts : list string;
  web : list (string * node);
  sudo : bool;
  ntemp : nat
}.

Definition set_fs (w : machine) (f : list (string * node)) (d mnt : list string) : machine :=
  {| environ := environ w; cwd := cwd w; script := script w; files := f; dirs := d;
     mounts := mnt; web := web w; sudo := sudo w; ntemp := ntemp w |}.

Definition bump (w : machine) : machine :=
  {| environ := environ w; cwd := cwd w; script := script w; files := files w;
     dirs := dirs w; mounts := mounts w; web := web w; sudo := sudo w;
     ntemp := S (ntemp w) |}.

Fixpoint lookup {A} (k : string) (l : list (string * A)) : option A :=
  match l with
  | [] => None
  | (k', v) :: rest => if String.eqb k k' then Some v else lookup k rest
  end.

Definition mem (k : string) (l : list string) : bool :=
  existsb (String.eqb k) l.

Definition drop_key {A} (k : string) (l : list (string * A)) : list (string * A) :=
  List.filter (fun kv => negb (String.eqb k (fst kv))) l.

Definition store {A} (k : string) (v : A) (l : list (string * A)) : list (string * A) :=
  (k, v) :: drop_key k l.

Definition under (d p : string) : bool := String.prefix (d ++ "/") p.

(** The directories above [p], nearest last: every prefix of [p] that
    ends just before a separator, the root excluded. *)
Fixpoint prefixes (seen p : string) : list string :=
  match p with
  | EmptyString => []
  | String c rest =>
      ((if (Ascii.eqb c "/" && negb (String.eqb seen ""))%bool then [seen] else [])
         ++ prefixes (seen ++ String c EmptyString) rest)%list
  end.

Definition parents (p : string) : list string := prefixes "" p.

Fixpoint basename_from (cur p : string) : string :=
  match p with
  | EmptyString => cur
  | String c rest =>
      if Ascii.eqb c "/" then basename_from "" rest
      else basename_from (cur ++ String c EmptyString) rest
  end.

Definition basename (p : string) : string := basename_from "" p.

Definition add_dirs (ds : list string) (have : list string) : list string :=
  fold_left (fun acc d => if mem d acc then acc else (acc ++ [d])%list) ds have.

(** Write node [n] at path [p], creating the directories above it. *)
Definition put (p : string) (n : node) (w : machine) : machine :=
  set_fs w (store p n (files w)) (add_dirs (parents p) (dirs w)) (mounts w).

(** Place every entry of [tree] below directory [d]. *)
Definition unpack (d : string) (tree : list (string * node)) (w : machine) : machine :=
  fold_left (fun acc e => put (d ++ "/" ++ fst e) (snd e) acc) tree w.

(** Remove everything below directory [d]. *)
Definition clear (d : string) (w : machine) : machine :=
  set_fs w (List.filter (fun kv => negb (under d (fst kv))) (files w))
           (List.filter (fun x => negb (under d x)) (dirs w)) (mounts w).

Definition occupied (d : string) (w : machine) : bool :=
  (existsb (fun kv => under d (fst kv)) (files w) || existsb (under d) (dirs w))%bool.

Definition sim_makedirs (p : string) (exist_ok : bool) (w : machine) : outcome unit * machine :=
  if bool_decide (is_Some (lookup p (files w))) then (Raise FileExistsError, w)
  else if mem p (dirs w) then
    (if exist_ok then Ret () else Raise FileExistsError, w)
  else if existsb (fun d => bool_decide (is_Some (lookup d (files w)))) (parents p) then
    (Raise NotADirectoryError, w)
  else (Ret (), set_fs w (files w) (add_dirs (parents p ++ [p])%list (dirs w)) (mounts w)).

Definition sim_rmdir (p : string) (w : machine) : outcome unit * machine :=
  if negb (mem p (dirs w)) then
    (Raise (if bool_decide (is_Some (lookup p (files w))) then NotADirectoryError
            else FileNotFoundError), w)
  else if (mem p (mounts w) || occupied p w)%bool then (Raise OSError, w)
  else (Ret (), set_fs w (files w) (List.filter (fun x => negb (String.eqb p x)) (dirs w)) (mounts w)).

Definition sim_copy2 (src dst : string) (w : machine) : outcome unit * machine :=
  match lookup src (files w) with
  | None => (Raise FileNotFoundError, w)
  | Some n =>
      if mem dst (dirs w) then (Ret (), put (dst ++ "/" ++ basename src) n w)
      else (Ret (), put dst n w)
  end.

Definition sim_open_read (p : string) (w : machine) : outcome string * machine :=
  match lookup p (files w) with
  | Some (Text s) => (Ret s, w)
  | Some _ => (Raise (OtherError "UnicodeDecodeError"), w)
  | None => (Raise FileNotFoundError, w)
  end.

Definition sim_open_write (p mode : string) (w : machine) : outcome unit * machine :=
  if mem p (dirs w) then (Raise (OtherError "IsADirectoryError"), w)
  else if negb (forallb (fun d => mem d (dirs w)) (parents p)) then (Raise FileNotFoundError, w)
  else if (String.eqb mode "ba" && bool_decide (is_Some (lookup p (files w))))%bool then (Ret (), w)
  else (Ret (), put p (Text "") w).

Definition sim_run (argv : list string) (dir : option string) (w : machine) : outcome Z * machine :=
  match argv with
  | "sudo" :: rest =>
      if negb (sudo w) then (Raise FileNotFoundError, w)
      else
        match rest with
        | ["mount"; "-o"; _; img; d] =>
            match lookup img (files w) with
            | Some (Image tree) =>
                if mem d (dirs w) then
                  (Ret 0, let w' := unpack d tree w in
                          set_fs w' (files w') (dirs w') (d :: mounts w'))
                else (Ret 32, w)
            | _ => (Ret 32, w)
            end
        | ["umount"; d] =>
            if mem d (mounts w) then
              (Ret 0, let w' := clear d w in
                      set_fs w' (files w') (dirs w')
                        (List.filter (fun x => negb (String.eqb d x)) (mounts w')))
            else (Ret 32, w)
        | _ => (Ret 1, w)
        end
  | _ => (Ret 0, w)
  end.

Definition sim_urlopen (url : string) (w : machine) : outcome unit * machine :=
  match lookup url (web w) with
  | Some _ => (Ret (), w)
  | None => (Raise URLError, w)
  end.

Definition sim_copyfileobj (url p : string) (w : machine) : outcome unit * machine :=
  match lookup url (web w) with
  | Some n => (Ret (), put p n w)
  | None => (Raise URLError, w)
  end.

Definition member_text (n : node) : string :=
  match n with
  | Text s => s
  | _ => ""
  end.

Definition sim_ZipFile (p : string) (w : machine) : outcome ZipFile * machine :=
  match lookup p (files w) with
  | Some (Zip members) =>
      (Ret {| zip_filename := p;
              zip_members := list_to_map (List.map (fun e => (fst e, member_text (snd e))) members) |}, w)
  | Some _ => (Raise (OtherError "BadZipFile"), w)
  | None => (Raise FileNotFoundError, w)
  end.

Definition sim_extract (z : ZipFile) (member p : string) (w : machine) : outcome string * machine :=
  match lookup (zip_filename z) (files w) with
  | Some (Zip members) =>
      match lookup member members with
      | Some n => (Ret (os_path_join p [member]), put (os_path_join p [member]) n w)
      | None => (Raise (KeyError member), w)
      end
  | _ => (Raise (OtherError "BadZipFile"), w)
  end.

Definition sim_mkdtemp (w : machine) : outcome string * machine :=
  let d := "/tmp/tmp" ++ str_of_int (Z.of_nat (ntemp w)) in
  (Ret d, bump (set_fs w (files w) (add_dirs (parents d ++ [d])%list (dirs w)) (mounts w))).

Definition sim_cleanup (d : string) (w : machine) : outcome unit * machine :=
  let w' := clear d w in
  (Ret (), set_fs w' (files w') (List.filter (fun x => negb (String.eqb d x)) (dirs w')) (mounts w')).

Definition sim_RunExtract (apex dest debugfs : string) (w : machine) : outcome unit * machine :=
  match lookup apex (files w) with
  | Some (Apex tree) => (Ret (), unpack dest tree w)
  | Some _ => (Raise (OtherError "ApexImageError"), w)
  | None => (Raise FileNotFoundError, w)
  end.

Definition sim_read_text (parent name : string) (w : machine) : outcome string * machine :=
  sim_open_read (os_path_join parent [name]) w.

Definition sim_write_text (parent name text : string) (w : machine) : outcome unit * machine :=
  if mem parent (dirs w) then (Ret (), put (os_path_join parent [name]) (Text text) w)
  else (Raise FileNotFoundError, w).

Definition sim_abspath (p : string) (w : machine) : string :=
  if String.prefix "/" p then p else os_path_join (cwd w) [p].

(** The simulated parser: one [key=value] option per line, blank lines
    and lines starting with [#] or [;] skipped. *)
Fixpoint split_at (sep : ascii) (s : string) : option (string * string) :=
  match s with
  | EmptyString => None
  | String c rest =>
      if Ascii.eqb c sep then Some (EmptyString, rest)
      else
        match split_at sep rest with
        | Some (a, b) => Some (String c a, b)
        | None => None
        end
  end.

Fixpoint lines_of (fuel : nat) (s : string) : list string :=
  match fuel with
  | O => [s]
  | S fuel' =>
      match split_at "010" s with
      | Some (l, rest) => l :: lines_of fuel' rest
      | None => [s]
      end
  end.

Definition parse_line (acc : outcome (gmap string string)) (line : string)
    : outcome (gmap string string) :=
  match acc with
  | Raise e => Raise e
  | Ret m =>
      let l := strip line in
      if (String.eqb l "" || String.prefix "#" l || String.prefix ";" l)%bool then Ret m
      else
        match split_at "=" l with
        | None => Raise ParsingError
        | Some (k, v) =>
            let k := lower (strip k) in
            match m !! k with
            | Some _ => Raise (OtherError "DuplicateOptionError")
            | None => Ret (<[k := strip v]> m)
            end
        end
  end.

Definition sim_configparser_root (text : string) : outcome SectionProxy :=
  match fold_left parse_line (lines_of (String.length text) text) (Ret ∅) with
  | Ret m => Ret {| section := m; defaults := ∅ |}
  | Raise e => Raise e
  end.

#[global] Instance sim_platform : Platform machine := {
  plat_getenv name w := lookup name (environ w);
  plat_abspath := sim_abspath;
  plat_isfile p w := bool_decide (is_Some (lookup p (files w)));
  plat_isdir p w := mem p (dirs w);
  plat_script_dir := script;
  plat_makedirs := sim_makedirs;
  plat_rmdir := sim_rmdir;
  plat_copy2 := sim_copy2;
  plat_open_read := sim_open_read;
  plat_open_write := sim_open_write;
  plat_run := sim_run;
  plat_urlopen := sim_urlopen;
  plat_copyfileobj := sim_copyfileobj;
  plat_ZipFile := sim_ZipFile;
  plat_extract := sim_extract;
  plat_mkdtemp := sim_mkdtemp;
  plat_cleanup := sim_cleanup;
  plat_RunExtract := sim_RunExtract;
  plat_read_text := sim_read_text;
  plat_write_text := sim_write_text;
  configparser_root := sim_configparser_root;
  str_format t _ := Ret t
}.

End Sim.

(** ** Simulated worlds *)

Module Scenario.
Import Py PyLib Platform Make Sim.

Definition nl : string := String "010" EmptyString.

(** The runtime APEX: the linker and the bionic libraries, and one more
    library that the script does not copy. *)
Definition runtime_apex : node :=
  Apex [("bin/linker64", Text "linker64");
        ("lib64/bionic/libc.so", Text "libc");
        ("lib64/bionic/libm.so", Text "libm");
        ("lib64/bionic/libdl.so", Text "libdl");
        ("lib64/libart.so", Text "libart")].

Definition system_img : node :=
  Image [("system/apex/com.android.runtime.apex", runtime_apex);
         ("system/build.prop", Text "ro.build.version.sdk=30")].

Definition properties (revision : string) : node :=
  Text ("Pkg.Desc=Google APIs ARM 64 v8a System Image" ++ nl ++
        "Pkg.Revision=" ++ revision ++ nl).

(** The package of API level 30, revision 5. *)
Definition package_r5 : node :=
  Zip [("arm64-v8a/source.properties", properties "5");
       ("arm64-v8a/system.img", system_img)].

Definition package_r5_url : string :=
  "http://dl.google.com/android/repository/sys-img/google_apis/arm64-v8a-30_r05.zip".

(** A machine with an empty output directory [/work/out], no SDK, and
    the package on the download server. *)
Definition fresh : machine :=
  {| environ := [("HOME", "/root")];
     cwd := "/work";
     script := "/opt/launcher";
     files := [("/opt/launcher/README.md", Text "readme");
               ("/opt/launcher/android-exe-launcher.nuspec", Text "nuspec")];
     dirs := ["/work"; "/work/out"; "/opt"; "/opt/launcher"; "/tmp"];
     mounts := [];
     web := [(package_r5_url, package_r5)];
     sudo := true;
     ntemp := 0 |}.

Definition with_environ (env : list (string * string)) (w : machine) : machine :=
  {| environ := env; cwd := cwd w; script := script w; files := files w;
     dirs := dirs w; mounts := mounts w; web := web w; sudo := sudo w;
     ntemp := ntemp w |}.

Definition without_sudo (w : machine) : machine :=
  {| environ := environ w; cwd := cwd w; script := script w; files := files w;
     dirs := dirs w; mounts := mounts w; web := web w; sudo := false;
     ntemp := ntemp w |}.

(** [--api 30 --rev 5 --abi arm64-v8a --dir out]. *)
Definition args_A : Namespace :=
  {| arg_sdk := None; arg_abi := "arm64-v8a"; arg_api := 30; arg_rev := 5;
     arg_dir := "out"; arg_version := 1 |}.

Definition start (w : machine) : state machine := St w [].

(** The output tree of scenario A and an image already extracted into
    it. *)
Definition dst_A : string := "/work/out/android-30_r05/arm64-v8a".

Definition extracted : machine :=
  put (dst_A ++ "/system.img") system_img fresh.

(** An SDK at [/opt/sdk] with the image of revision 5 installed. *)
Definition sdk_dir : string := "/opt/sdk/system-images/android-30/google_apis/arm64-v8a".

Definition with_sdk : machine :=
  put (sdk_dir ++ "/system.img") system_img
    (put (sdk_dir ++ "/source.properties") (properties "5") fresh).

(** The same SDK with the image file deleted. *)
Definition sdk_without_image : machine :=
  put (sdk_dir ++ "/source.properties") (properties "5") fresh.

(** A package whose properties carry revision 0, downloaded to the
    output directory, next to an image extracted earlier. *)
Definition package_r0 : node :=
  Zip [("arm64-v8a/source.properties", properties "0");
       ("arm64-v8a/system.img", system_img)].

Definition stale : machine :=
  put "/work/out/pkg.zip" package_r0
    (put "/work/out/android-30_r05/arm64-v8a/system.img" system_img fresh).

(** A package without [source.properties]. *)
Definition package_bare : node :=
  Zip [("arm64-v8a/system.img", system_img)].

Definition bare : machine := put "/work/out/pkg.zip" package_bare fresh.

(** A machine whose SDK lacks the image and whose download server
    holds the package without [source.properties]. *)
Definition bare_server : machine :=
  {| environ := environ sdk_without_image; cwd := cwd sdk_without_image;
     script := script sdk_without_image; files := files sdk_without_image;
     dirs := dirs sdk_without_image; mounts := mounts sdk_without_image;
     web := [(package_r5_url, package_bare)]; sudo := true; ntemp := 0 |}.

(** An output tree in which [system.img] is not a disk image, so that
    [mount] fails. *)
Definition broken_image : machine :=
  put (dst_A ++ "/system.img") (Text "not an image") fresh.

(** Only [ANDROID_SDK_ROOT] set. *)
Definition root_only : machine :=
  with_environ [("ANDROID_SDK_ROOT", "/opt/sdk")] with_sdk.

(** [ANDROID_SDK_HOME] set to the empty string, [ANDROID_SDK_ROOT] to
    the SDK. *)
Definition empty_home : machine :=
  with_environ [("ANDROID_SDK_HOME", ""); ("ANDROID_SDK_ROOT", "/opt/sdk")] with_sdk.

Definition img_A : string := "/work/out/android-30_r05/arm64-v8a/system.img".

(** The mount/copy step on the extracted image, with and without
    [sudo] installed. *)
Definition mounted : outcome unit * state machine :=
  mount_img_and_copy img_A dst_A (start extracted).

Definition mounted_without_sudo : outcome unit * state machine :=
  mount_img_and_copy img_A dst_A (start (without_sudo extracted)).

(** The mount/copy step on the file that is no disk image. *)
Definition mounted_broken : outcome unit * state machine :=
  mount_img_and_copy img_A dst_A (start broken_image).

(** An image whose runtime APEX lacks [libm.so], extracted into the
    output tree, and the mount/copy step on it. *)
Definition incomplete_img : node :=
  Image [("system/apex/com.android.runtime.apex",
          Apex [("bin/linker64", Text "linker64");
                ("lib64/bionic/libc.so", Text "libc");
                ("lib64/bionic/libdl.so", Text "libdl")])].

Definition incomplete : machine := put img_A incomplete_img fresh.

Definition mounted_incomplete : outcome unit * state machine :=
  mount_img_and_copy img_A dst_A (start incomplete).

(** The extractor on the stale package. *)
Definition extracted_stale : outcome (option string * Z) * state machine :=
  extract_system_package "/work/out/pkg.zip" "arm64-v8a" "/work/out/android-30_r05"
    (start stale).

(** The archive that [ZipFile] opens from the stale package, and the
    properties read from it. *)
Definition stale_zip : ZipFile :=
  {| zip_filename := "/work/out/pkg.zip";
     zip_members :=
       list_to_map [("arm64-v8a/source.properties", member_text (properties "0"));
                    ("arm64-v8a/system.img", "")] |}.

Definition stale_prop : props :=
  Proxy {| section := {["pkg.desc" := "Google APIs ARM 64 v8a System Image";
                        "pkg.revision" := "0"]};
           defaults := ∅ |}.

(** The fetcher on the fresh machine. *)
Definition downloaded : outcome string * state machine :=
  download_system_package "/work/out" "arm64-v8a" 30 5 (start fresh).

(** An archive value without [source.properties]. *)
Definition bare_zip : ZipFile :=
  {| zip_filename := "/work/out/pkg.zip";
     zip_members := {["arm64-v8a/system.img" := ""]} |}.

(** A section in which [Pkg.Revision] is not a number. *)
Definition malformed : props :=
  Proxy {| section := {["pkg.revision" := "abc"]}; defaults := ∅ |}.

(** The output tree with the mount directory already there. *)
Definition with_mount_dir : machine :=
  snd (sim_makedirs (os_path_join dst_A ["mount"]) false extracted).

(** An SDK whose [source.properties] is not text, and one whose
    [source.properties] has a line that is no option. *)
Definition binary_properties : machine :=
  put (sdk_dir ++ "/source.properties") system_img fresh.

Definition garbled_properties : machine :=
  put (sdk_dir ++ "/source.properties") (Text "garbage") fresh.

(** A machine that reaches no server. *)
Definition offline : machine :=
  {| environ := environ fresh; cwd := cwd fresh; script := script fresh;
     files := files fresh; dirs := dirs fresh; mounts := mounts fresh;
     web := []; sudo := true; ntemp := 0 |}.

(** The package of revision 5 in the output directory, without and with
    an image extracted from it before. *)
Definition unpacked : machine := put "/work/out/pkg.zip" package_r5 fresh.

Definition cached_image : machine := put img_A system_img unpacked.

Definition r5_zip : ZipFile :=
  {| zip_filename := "/work/out/pkg.zip";
     zip_members :=
       list_to_map [("arm64-v8a/source.properties", member_text (properties "5"));
                    ("arm64-v8a/system.img", "")] |}.

Definition r5_prop : props :=
  Proxy {| section := {["pkg.desc" := "Google APIs ARM 64 v8a System Image";
                        "pkg.revision" := "5"]};
           defaults := ∅ |}.

(** A package with properties of revision 5 and no image. *)
Definition package_props_only : node :=
  Zip [("arm64-v8a/source.properties", properties "5")].

Definition props_only : machine := put "/work/out/pkg.zip" package_props_only fresh.

Definition props_only_zip : ZipFile :=
  {| zip_filename := "/work/out/pkg.zip";
     zip_members :=
       list_to_map [("arm64-v8a/source.properties", member_text (properties "5"))] |}.

(** A source directory that holds [libc.so] and [libdl.so] but not
    [libm.so]. *)
Definition two_libs : machine :=
  put "/src/libdl.so" (Text "libdl") (put "/src/libc.so" (Text "libc") fresh).

(** [--sdk /opt/sdk] with the revision asked for being 5, none, and 4. *)
Definition args_sdk : Namespace := set_sdk args_A (Some "/opt/sdk").

Definition args_sdk_any : Namespace := set_rev args_sdk 0.

Definition args_sdk_r4 : Namespace := set_rev args_sdk 4.

(** A server that answers the URL of revision 4 with the package of
    revision 5, and the arguments asking for revision 4 in [/work/out]. *)
Definition package_r4_url : string :=
  "http://dl.google.com/android/repository/sys-img/google_apis/arm64-v8a-30_r04.zip".

Definition mislabeled : machine :=
  {| environ := environ fresh; cwd := cwd fresh; script := script fresh;
     files := files fresh; dirs := dirs fresh; mounts := mounts fresh;
     web := [(package_r4_url, package_r5)]; sudo := true; ntemp := 0 |}.

Definition args_out : Namespace := set_dir args_A "/work/out".

(** The output tree with [nuget.exe] already downloaded. *)
Definition with_nuget : machine := put "/work/out/nuget.exe" (Text "nuget") extracted.

(** An extracted APEX in [/apex] without the linker. *)
Definition no_linker : machine := put "/apex/lib64/bionic/libc.so" (Text "libc") fresh.

Definition args_out_r4 : Namespace := set_rev args_out 4.

End Scenario.

(** ** A platform that renders templates

    The simulated machine with a renderer for the [{name}] placeholders
    of [str.format]: a name among the attributes of the namespace is
    replaced by its text, any other name is a [KeyError]. *)

Module Render.
Import Py PyLib Platform Sim Scenario.

Definition vars (args : Namespace) : list (string * string) :=
  [("sdk", match arg_sdk args with Some v => v | None => "None" end);
   ("abi", arg_abi args);
   ("api", str_of_int (arg_api args));
   ("rev", str_of_int (arg_rev args));
   ("dir", arg_dir args);
   ("version", str_of_int (arg_version args))].

Fixpoint render (fuel : nat) (template : string) (args : Namespace) : outcome string :=
  match fuel, template with
  | O, _ => Ret template
  | _, EmptyString => Ret EmptyString
  | S fuel', String c rest =>
      if Ascii.eqb c "{" then
        match split_at "}" rest with
        | None => Raise ValueError
        | Some (name, rest') =>
            match lookup name (vars args) with
            | None => Raise (KeyError name)
            | Some v =>
                match render fuel' rest' args with
                | Ret t => Ret (v ++ t)
                | Raise e => Raise e
                end
            end
        end
      else
        match render fuel' rest args with
        | Ret t => Ret (String c t)
        | Raise e => Raise e
        end
  end.

Definition rendering : Platform machine := {|
  plat_getenv name w := lookup name (environ w);
  plat_abspath := sim_abspath;
  plat_isfile p w := bool_decide (is_Some (lookup p (files w)));
  plat_isdir p w := mem p (dirs w);
  plat_script_dir := script;
  plat_makedirs := sim_makedirs;
  plat_rmdir := sim_rmdir;
  plat_copy2 := sim_copy2;
  plat_open_read := sim_open_read;
  plat_open_write := sim_open_write;
  plat_run := sim_run;
  plat_urlopen := sim_urlopen;
  plat_copyfileobj := sim_copyfileobj;
  plat_ZipFile := sim_ZipFile;
  plat_extract := sim_extract;
  plat_mkdtemp := sim_mkdtemp;
  plat_cleanup := sim_cleanup;
  plat_RunExtract := sim_RunExtract;
  plat_read_text := sim_read_text;
  plat_write_text := sim_write_text;
  configparser_root := sim_configparser_root;
  str_format t args := render (S (String.length t)) t args
|}.

(** A readme template that names a placeholder the script does not
    supply. *)
Definition bad_template : machine :=
  put "/opt/launcher/README.md" (Text "Image {api} for {board}") fresh.

(** Templates with placeholders, beside the output tree with
    [nuget.exe] in place. *)
Definition templates : machine :=
  put "/opt/launcher/README.md" (Text "Image android-{api} r{rev} for {abi}")
    (put "/opt/launcher/android-exe-launcher.nuspec" (Text "<version>{version}</version>")
       with_nuget).

End Render.

(** ** What the specification says, where it differs from the script *)

Module Spec.
Import Py PyLib Platform.

(** Modelled on the specification's words for the SDK root: of the two
    environment variables, in order, "first non-empty wins". *)
Definition non_empty (v : option string) : bool :=
  match v with
  | Some (String _ _) => true
  | _ => false
  end.

Definition first_non_empty (home root : option string) : option string :=
  if non_empty home then home
  else if non_empty root then root
  else None.

(** Modelled on the specification's words for the copies of the
    mount/copy step: the four files go "directly under" [bin] and
    [lib64] of the output directory [dst]. *)
Definition copies_as_stated (tempdir dst : string) : list event :=
  [Ev (Copy2 (os_path_join (os_path_join tempdir ["bin"]) ["linker64"])
             (os_path_join dst ["bin"])) None;
   Ev (Copy2 (os_path_join (os_path_join tempdir ["lib64"; "bionic"]) ["libc.so"])
             (os_path_join dst ["lib64"])) None;
   Ev (Copy2 (os_path_join (os_path_join tempdir ["lib64"; "bionic"]) ["libm.so"])
             (os_path_join dst ["lib64"])) None;
   Ev (Copy2 (os_path_join (os_path_join tempdir ["lib64"; "bionic"]) ["libdl.so"])
             (os_path_join dst ["lib64"])) None].

(** Modelled on the specification's words for the revision: the
    integer of [Pkg.Revision], "defaulting to 0 when absent or
    unparsable". *)
Definition revision_or_zero (prop : props) : outcome Z :=
  match get prop "Pkg.Revision" (VInt 0) with
  | Ret v =>
      match int v with
      | Ret z => Ret z
      | Raise _ => Ret 0
      end
  | Raise e => Raise e
  end.

End Spec.

(** ** Logs of runs *)

Module Trace.
Import Py PyLib Platform Make.

Definition is_copy (e : event) : bool :=
  match ev_call e with
  | Copy2 _ _ => true
  | _ => false
  end.

(** The file copies among the logged calls. *)
Definition copies (l : list event) : list event := List.filter is_copy l.

(** A call that returned. *)
Definition ok (c : call) : event := Ev c None.

(** The log entries of each function when every call in it returns. *)
Definition cpy_events (dst src : string) (files : list string) : list event :=
  ok (Makedirs dst true) :: List.map (fun f => ok (Copy2 (os_path_join src [f]) dst)) files.

Definition copy_from_apex_events (src dst : string) : list event :=
  (cpy_events (os_path_join dst ["bin"]) (os_path_join src ["bin"]) ["linker64"]
   ++ cpy_events (os_path_join dst ["lib64"]) (os_path_join src ["lib64"; "bionic"])
        ["libc.so"; "libm.so"; "libdl.so"])%list.

Definition extract_apex_and_copy_events (apex dst tempdir : string) : list event :=
  (ok MkTemp :: ok (RunExtract apex tempdir "/usr/sbin/debugfs")
   :: copy_from_apex_events tempdir dst ++ [ok (Cleanup tempdir)])%list.

Definition copy_from_img_events (dst : string) : list event :=
  [ok (Makedirs (os_path_join dst ["linkerconfig"]) true);
   ok (Open (os_path_join (os_path_join dst ["linkerconfig"]) ["ld.config.txt"]) "ba")].

Definition runtime_apex_path (mountpoint : string) : string :=
  os_path_join mountpoint ["system"; "apex"; "com.android.runtime.apex"].

(** The log of a mount/copy step that returns: [mkdir] says whether the
    mount directory had to be created, [tempdir] is the temporary
    directory of the APEX extraction. *)
Definition mount_img_and_copy_events (img dst : string) (mkdir : bool) (tempdir : string)
    : list event :=
  let mountpoint := os_path_join dst ["mount"] in
  ((if mkdir then [ok (Makedirs mountpoint false)] else [])
   ++ [ok (Run (mount_argv img mountpoint) None)]
   ++ copy_from_img_events dst
   ++ extract_apex_and_copy_events (runtime_apex_path mountpoint)
        (os_path_join dst ["system"]) tempdir
   ++ [ok (Run (umount_argv mountpoint) None)]
   ++ (if mkdir then [ok (Rmdir mountpoint)] else []))%list.

(** The four copies of a mount/copy step, out of the temporary
    directory [tempdir] into [dst/system]. *)
Definition runtime_copies (tempdir dst : string) : list event :=
  [ok (Copy2 (os_path_join (os_path_join tempdir ["bin"]) ["linker64"])
             (os_path_join (os_path_join dst ["system"]) ["bin"]));
   ok (Copy2 (os_path_join (os_path_join tempdir ["lib64"; "bionic"]) ["libc.so"])
             (os_path_join (os_path_join dst ["system"]) ["lib64"]));
   ok (Copy2 (os_path_join (os_path_join tempdir ["lib64"; "bionic"]) ["libm.so"])
             (os_path_join (os_path_join dst ["system"]) ["lib64"]));
   ok (Copy2 (os_path_join (os_path_join tempdir ["lib64"; "bionic"]) ["libdl.so"])
             (os_path_join (os_path_join dst ["system"]) ["lib64"]))].

(** The calls that go to the network. *)
Definition is_network (c : call) : bool :=
  match c with
  | UrlOpen _ | CopyFileObj _ _ => true
  | _ => false
  end.

(** Every call but the removal of directory [d]. *)
Definition keeps (d : string) (c : call) : bool :=
  match c with
  | Rmdir path => negb (String.eqb path d)
  | _ => true
  end.

(** The calls that write nothing: reading a file, opening an archive. *)
Definition is_read (c : call) : bool :=
  match c with
  | Open _ mode => String.eqb mode "r"
  | OpenZip _ => true
  | _ => false
  end.

Section Appends.
Context {W : Type} `{Platform W}.

(** Every entry that a run adds is a call that [allowed] accepts. *)
Definition only_calls {A} (allowed : call → bool) (m : M W A) : Prop :=
  ∀ s : state W, ∃ evs : list event,
    log (snd (m s)) = (log s ++ evs)%list ∧
    forallb (fun e => allowed (ev_call e)) evs = true.

(** The mount directory did not exist when the step began and the
    step's [os.makedirs] for it returned. *)
Definition created_by_tool (tempdir : string) (before after : state W) : Prop :=
  plat_isdir tempdir (world before) = false ∧ In (ok (Makedirs tempdir false)) (log after).

(** The mount directory is not there when the step has ended. *)
Definition removed (tempdir : string) (after : state W) : Prop :=
  plat_isdir tempdir (world after) = false.

(** The specification's words for the end of the mount/copy step: the
    mount directory is removed if and only if the tool itself created
    it. *)
Definition removed_iff_created (tempdir : string) (before after : state W) : Prop :=
  removed tempdir after ↔ created_by_tool tempdir before after.

(** A run only ever adds entries at the end of the log. *)
Definition appends {A} (m : M W A) : Prop :=
  ∀ s : state W, ∃ evs : list event, log (snd (m s)) = (log s ++ evs)%list.

(** The first entry that a run adds is call [c], whatever follows. *)
Definition starts_with {A} (c : call) (m : M W A) : Prop :=
  ∀ s : state W, ∃ (r : option exn) (evs : list event),
    log (snd (m s)) = (log s ++ Ev c r :: evs)%list.

End Appends.

End Trace.

(** ** Properties of the script *)

Import Py PyLib Platform Make Trace.
Local Open Scope list_scope.

Ltac unfold_run :=
  unfold bind, ret, raise, lift, query, act, local, sys_exit,
    try_finally, try_except_FileNotFoundError in *.

(** *** Paths and file names *)

Lemma endswith_sep_cons_false (c : ascii) (t : string) :
  Ascii.eqb c "/" = false → endswith_sep t = false → endswith_sep (String c t) = false.
Proof. intros Hc Ht. destruct t; simpl in *; [exact Hc | exact Ht]. Qed.

Lemma endswith_sep_app (a b : string) :
  b ≠ EmptyString → endswith_sep (a ++ b)%string = endswith_sep b.
Proof.
  intros Hb. induction a as [| c a IH]; [reflexivity |].
  change (String c a ++ b)%string with (String c (a ++ b)%string).
  destruct (a ++ b)%string as [| c' t] eqn:Hab.
  - destruct a; simpl in Hab; [contradiction | discriminate].
  - exact IH.
Qed.

Lemma join2_plain (path b : string) :
  path ≠ EmptyString → endswith_sep path = false → startswith "/" b = false →
  join2 path b = (path ++ "/" ++ b)%string.
Proof.
  intros Hne Hsep Hb. unfold join2. rewrite Hb, Hsep.
  destruct path; [contradiction | reflexivity].
Qed.

Lemma string_of_uint_no_sep (d : Decimal.uint) :
  endswith_sep (NilEmpty.string_of_uint d) = false.
Proof.
  induction d; simpl NilEmpty.string_of_uint;
    [reflexivity | apply endswith_sep_cons_false; [reflexivity | assumption] ..].
Qed.

Lemma str_of_int_no_sep (z : Z) : endswith_sep (str_of_int z) = false.
Proof.
  unfold str_of_int, NilZero.string_of_int.
  assert (Hu : ∀ d, endswith_sep (NilZero.string_of_uint d) = false).
  { intros d. destruct d; try reflexivity;
      apply (string_of_uint_no_sep (_ d)) || apply string_of_uint_no_sep. }
  destruct (Z.to_int z) as [d | d]; [apply Hu |].
  apply endswith_sep_cons_false; [reflexivity | apply Hu].
Qed.

Lemma append_assoc (a b c : string) : ((a ++ b) ++ c = a ++ (b ++ c))%string.
Proof.
  induction a as [| x a IH]; [reflexivity |].
  change (String x ((a ++ b) ++ c) = String x (a ++ (b ++ c)))%string.
  rewrite IH. reflexivity.
Qed.

Lemma app_not_empty (a b : string) : b ≠ EmptyString → (a ++ b)%string ≠ EmptyString.
Proof. intros Hb. destruct a; simpl; [exact Hb | discriminate]. Qed.

(** The directory that the locator reads, written out: for an SDK root
    that is not empty and does not end in a separator, and an ABI that
    does not start with one, it is
    [<sdk>/system-images/android-<api>/google_apis/<abi>]. *)
Lemma system_image_dir_plain (sdk abi : string) (api : Z) :
  sdk ≠ EmptyString → endswith_sep sdk = false → startswith "/" abi = false →
  system_image_dir sdk abi api =
    (sdk ++ "/system-images" ++ "/android-" ++ str_of_int api ++ "/google_apis/" ++ abi)%string.
Proof.
  intros Hne Hsep Habi. unfold system_image_dir, os_path_join. cbn [fold_left].
  rewrite (join2_plain sdk "system-images" Hne Hsep eq_refl).
  set (p1 := (sdk ++ "/" ++ "system-images")%string).
  assert (Hp1 : p1 ≠ EmptyString) by (apply app_not_empty; discriminate).
  assert (Hs1 : endswith_sep p1 = false)
    by (unfold p1; rewrite endswith_sep_app by discriminate; reflexivity).
  rewrite (join2_plain p1 ("android-" ++ str_of_int api) Hp1 Hs1 eq_refl).
  set (p2 := (p1 ++ "/" ++ "android-" ++ str_of_int api)%string).
  assert (Hp2 : p2 ≠ EmptyString) by (apply app_not_empty; discriminate).
  assert (Hs2 : endswith_sep p2 = false).
  { unfold p2. rewrite endswith_sep_app by discriminate.
    cbv beta iota fix delta [String.append].
    change (endswith_sep (String "-" (str_of_int api)) = false).
    apply endswith_sep_cons_false; [reflexivity | apply str_of_int_no_sep]. }
  rewrite (join2_plain p2 "google_apis" Hp2 Hs2 eq_refl).
  set (p3 := (p2 ++ "/" ++ "google_apis")%string).
  assert (Hp3 : p3 ≠ EmptyString) by (apply app_not_empty; discriminate).
  assert (Hs3 : endswith_sep p3 = false)
    by (unfold p3; rewrite endswith_sep_app by discriminate; reflexivity).
  rewrite (join2_plain p3 abi Hp3 Hs3 Habi).
  unfold p3, p2, p1. rewrite !append_assoc. reflexivity.
Qed.

Example system_image_dir_example :
  system_image_dir "/opt/sdk" "arm64-v8a" 30 =
    "/opt/sdk/system-images/android-30/google_apis/arm64-v8a".
Proof. reflexivity. Qed.

(** A revision from 0 to 99 is formatted with exactly two digits. *)
Lemma format_02d_two_digits (revision : Z) :
  0 ≤ revision < 100 → String.length (format_02d revision) = 2%nat.
Proof.
  intros Hrange.
  assert (Hall : forallb (fun n => Nat.eqb (String.length (format_02d (Z.of_nat n))) 2)
                   (seq 0 100) = true) by (vm_compute; reflexivity).
  rewrite forallb_forall in Hall.
  specialize (Hall (Z.to_nat revision)). rewrite Z2Nat.id in Hall by lia.
  apply Nat.eqb_eq, Hall, in_seq. lia.
Qed.

Example package_filename_example :
  package_filename "arm64-v8a" 30 5 = "arm64-v8a-30_r05.zip".
Proof. reflexivity. Qed.

(** *** Reading the revision *)

Lemma get_absent (prop : props) (key : string) (fallback : value) :
  has_key prop key = false → get prop key fallback = Ret fallback.
Proof.
  destruct prop as [d | p]; simpl; intros Hk.
  - apply bool_decide_eq_false in Hk.
    destruct (d !! key) eqn:E; [exfalso; apply Hk; eauto | reflexivity].
  - apply bool_decide_eq_false in Hk.
    destruct (chain_lookup p (lower key)) eqn:E; [exfalso; apply Hk; eauto | reflexivity].
Qed.

Lemma revision_empty_dict : revision (Dict ∅) = Ret 0.
Proof. reflexivity. Qed.

Lemma interpolate_loop_plain (nested : string → outcome string)
    (map : string → option string) (rest : string) (fuel : nat) :
  contains_percent rest = false → (String.length rest < fuel)%nat →
  interpolate_loop nested map fuel rest = Ret rest.
Proof.
  revert fuel. induction rest as [| c rest IH]; intros fuel Hplain Hfuel.
  - destruct fuel; reflexivity.
  - destruct fuel as [| fuel]; [simpl in Hfuel; lia |].
    cbn [contains_percent] in Hplain. apply orb_false_elim in Hplain as [Hc Hrest].
    cbn [interpolate_loop]. rewrite Hc, IH; [reflexivity | exact Hrest |].
    simpl in Hfuel. lia.
Qed.

(** A value without [%] comes out of the interpolation as it is. *)
Lemma before_get_plain (map : string → option string) (v : string) :
  contains_percent v = false → before_get map v = Ret v.
Proof.
  intros Hplain. unfold before_get, MAX_INTERPOLATION_DEPTH. cbn [interpolate_some].
  apply interpolate_loop_plain; [exact Hplain | lia].
Qed.

(** C8, as the script has it. The revision is 0 when [Pkg.Revision] is
    absent from the properties. When the key is present no default
    applies: the revision is [int()] of the text that [prop.get] returns,
    the integer when [int()] accepts the text and a raised [ValueError]
    when it does not, and an exception of [prop.get] itself, which is how
    a failed interpolation of the stored value shows, is raised as it is;
    and for a section proxy the text that [prop.get] returns is the
    stored value itself whenever that value has no [%] in it. *)
Theorem revision_zero_only_when_absent :
  (∀ prop : props, has_key prop "Pkg.Revision" = false → revision prop = Ret 0) ∧
  (∀ (prop : props) (v : string),
     get prop "Pkg.Revision" (VInt 0) = Ret (VStr v) →
     revision prop = match int_of_str v with
                     | Some z => Ret z
                     | None => Raise ValueError
                     end) ∧
  (∀ (prop : props) (e : exn),
     get prop "Pkg.Revision" (VInt 0) = Raise e →
     revision prop = Raise e) ∧
  (∀ (p : SectionProxy) (v : string),
     chain_lookup p "pkg.revision" = Some v →
     contains_percent v = false →
     get (Proxy p) "Pkg.Revision" (VInt 0) = Ret (VStr v)).
Proof.
  split; [| split; [| split]].
  - intros prop Hk. unfold revision. rewrite (get_absent _ _ _ Hk). reflexivity.
  - intros prop v Hget. unfold revision. rewrite Hget. reflexivity.
  - intros prop e Hget. unfold revision. rewrite Hget. reflexivity.
  - intros p v Hlookup Hplain. unfold get.
    change (lower "Pkg.Revision") with "pkg.revision". rewrite Hlookup.
    rewrite (before_get_plain _ _ Hplain). reflexivity.
Qed.

(** A properties file without the key; one whose revision is the text
    [abc]; one whose revision ends in a [%] that refers to nothing; and
    the text [abc] as [prop.get] returns it. *)
Lemma revision_zero_only_when_absent_witness :
  revision (Proxy {| section := {["pkg.desc" := "image"]}; defaults := ∅ |}) = Ret 0 ∧
  revision Scenario.malformed = Raise ValueError ∧
  revision (Proxy {| section := {["pkg.revision" := "5%"]}; defaults := ∅ |}) =
    Raise InterpolationSyntaxError ∧
  get Scenario.malformed "Pkg.Revision" (VInt 0) = Ret (VStr "abc").
Proof.
  destruct revision_zero_only_when_absent as (Habsent & Hmalformed & Hraised & Hplain).
  split; [| split; [| split]].
  - apply Habsent. vm_compute. reflexivity.
  - rewrite (Hmalformed Scenario.malformed "abc"); vm_compute; reflexivity.
  - apply Hraised. vm_compute. reflexivity.
  - apply Hplain; vm_compute; reflexivity.
Defined.

(** C8 as stated fails: for the properties whose [Pkg.Revision] is
    [abc], the script's revision is a raised [ValueError], where the
    specification's reading gives 0. *)
Lemma revision_malformed_raises :
  has_key Scenario.malformed "Pkg.Revision" = true ∧
  revision Scenario.malformed = Raise ValueError ∧
  Spec.revision_or_zero Scenario.malformed = Ret 0 ∧
  revision Scenario.malformed ≠ Ret 0.
Proof. vm_compute. repeat split; try reflexivity. discriminate. Qed.

(** A stored value is not always the text that [int()] sees: a
    reference to another option is replaced by that option's value
    first. *)
Lemma revision_interpolated :
  revision (Proxy {| section := {["pkg.revision" := "%(a)s"; "a" := "7"]}; defaults := ∅ |})
    = Ret 7.
Proof. vm_compute. reflexivity. Qed.

Section Properties.
Context {W : Type} `{Platform W}.

(** *** Resolving the SDK root *)

Lemma resolve_sdk_given (args : Namespace) (sdk : string) (s : state W) :
  arg_sdk args = Some sdk → resolve_sdk args s = (Ret args, s).
Proof. intros Hsdk. unfold resolve_sdk. unfold_run. rewrite Hsdk. simpl. rewrite Hsdk. reflexivity. Qed.

(** C9, as the script has it: without [--sdk], the SDK root is the
    value of [ANDROID_SDK_HOME] if that variable is set, whatever its
    value, the empty string included; otherwise it is the value of
    [ANDROID_SDK_ROOT] if that one is set; otherwise it stays [None]. *)
Theorem resolve_sdk_first_set (args : Namespace) (s : state W) :
  arg_sdk args = None →
  resolve_sdk args s =
    (Ret (set_sdk args
            match plat_getenv "ANDROID_SDK_HOME" (world s) with
            | Some home => Some home
            | None => plat_getenv "ANDROID_SDK_ROOT" (world s)
            end), s).
Proof.
  intros Hsdk. unfold resolve_sdk, os_getenv. unfold_run. rewrite Hsdk. simpl.
  destruct (plat_getenv "ANDROID_SDK_HOME" (world s)); reflexivity.
Qed.

(** *** The missing binding of [img] *)

(** C1: with no [--sdk] and neither environment variable set, [main]
    stops at line 145 with [UnboundLocalError] for [img], before any
    call is logged: nothing is printed, downloaded, extracted or
    mounted. *)
Theorem main_without_sdk_unbound (args : Namespace) (s : state W) :
  arg_sdk args = None →
  plat_getenv "ANDROID_SDK_HOME" (world s) = None →
  plat_getenv "ANDROID_SDK_ROOT" (world s) = None →
  main args s = (Raise (UnboundLocalError "img"), s).
Proof.
  intros Hsdk Hhome Hroot.
  unfold main, resolve_sdk, os_getenv, os_path_abspath, lookup_in_sdk. unfold_run.
  rewrite Hsdk. simpl. rewrite Hhome. simpl. rewrite Hroot. reflexivity.
Qed.

(** *** The properties reader *)

Lemma load_source_properties_builtins_missing (dir : string) (s : state W) (w' : W) :
  plat_open_read (os_path_join dir ["source.properties"]) (world s) = (Raise FileNotFoundError, w') →
  load_source_properties builtins dir s =
    (Ret (Dict ∅),
     St w' (log s ++ [Ev (Open (os_path_join dir ["source.properties"]) "r")
                         (Some FileNotFoundError)])).
Proof.
  intros Hopen. unfold load_source_properties, mod_open, open_read. unfold_run.
  rewrite Hopen. reflexivity.
Qed.

(** Reading the properties of an archive leaves the run's state as it
    is. *)
Lemma load_source_properties_archive_state (z : ZipFile) (dir : string) (s : state W) :
  snd (load_source_properties (archive z) dir s) = s.
Proof.
  unfold load_source_properties, mod_open. unfold_run.
  destruct (ZipFile_open z _) as [text | e]; simpl.
  - destruct (configparser_root text) as [root | []]; reflexivity.
  - destruct e; reflexivity.
Qed.

(** C3: for an archive that has no member [source.properties] at the
    given path, the reader raises [KeyError]; the handler for
    [FileNotFoundError] does not apply, and no mapping is returned. *)
Theorem load_source_properties_archive_missing (z : ZipFile) (dir : string) (s : state W) :
  zip_members z !! os_path_join dir ["source.properties"] = None →
  load_source_properties (archive z) dir s =
    (Raise (KeyError (os_path_join dir ["source.properties"])), s).
Proof.
  intros Hmember. unfold load_source_properties, mod_open, ZipFile_open. unfold_run.
  rewrite Hmember. reflexivity.
Qed.

(** *** The package fetcher *)

Lemma download_path (dir abi : string) (api rev : Z) (s s1 : state W) (p : string) :
  download_system_package dir abi api rev s = (Ret p, s1) →
  p = os_path_join dir [package_filename abi api rev].
Proof.
  unfold download_system_package, fetch, os_path_isfile, urllib_request_urlopen,
    open_write, shutil_copyfileobj. unfold_run.
  destruct (plat_isfile _ (world s)); simpl.
  - congruence.
  - destruct (plat_urlopen _ _) as [[[] | e1] w1]; simpl; [| congruence].
    destruct (plat_open_write _ _ _) as [[[] | e2] w2]; simpl; [| congruence].
    destruct (plat_copyfileobj _ _ _) as [[[] | e3] w3]; simpl; congruence.
Qed.

(** C7: when the package file is present in the output directory, a
    call returns its path without logging any call, so without a network
    request; and a call that follows a successful first call, with the
    file then present, returns the same path as the first and logs
    nothing. *)
Theorem download_cached (dir abi : string) (api rev : Z) :
  (∀ s : state W,
     plat_isfile (os_path_join dir [package_filename abi api rev]) (world s) = true →
     download_system_package dir abi api rev s =
       (Ret (os_path_join dir [package_filename abi api rev]), s)) ∧
  (∀ (s s1 : state W) (first : string),
     download_system_package dir abi api rev s = (Ret first, s1) →
     plat_isfile first (world s1) = true →
     download_system_package dir abi api rev s1 = (Ret first, s1)).
Proof.
  assert (Hcached : ∀ s : state W,
    plat_isfile (os_path_join dir [package_filename abi api rev]) (world s) = true →
    download_system_package dir abi api rev s =
      (Ret (os_path_join dir [package_filename abi api rev]), s)).
  { intros s Hfile. unfold download_system_package, os_path_isfile. unfold_run.
    rewrite Hfile. reflexivity. }
  split; [exact Hcached |].
  intros s s1 first Hfirst Hfile.
  pose proof (download_path _ _ _ _ _ _ _ Hfirst) as ->.
  apply Hcached, Hfile.
Qed.

(** *** The image locator *)


(** *** The package extractor *)

(** C2, as the script has it: when the archive's properties give
    revision 0, nothing is extracted, whether or not the archive holds
    [system.img]; the result is revision 0 with the destination path if a
    file is there already, and with no image otherwise. *)
Theorem extract_revision_zero (package abi dst : string) (s : state W)
    (z : ZipFile) (w1 : W) (prop : props) :
  plat_ZipFile package (world s) = (Ret z, w1) →
  fst (load_source_properties (archive z) abi
         (St w1 (log s ++ [Ev (OpenZip package) None]))) = Ret prop →
  revision prop = Ret 0 →
  extract_system_package package abi dst s =
    (Ret (if plat_isfile (os_path_join dst [abi; "system.img"]) w1
          then Some (os_path_join dst [abi; "system.img"]) else None, 0),
     St w1 (log s ++ [Ev (OpenZip package) None])).
Proof.
  intros Hzip Hload Hrev.
  pose proof (load_source_properties_archive_state z abi
                (St w1 (log s ++ [Ev (OpenZip package) None]))) as Hstate.
  unfold extract_system_package, zipfile_ZipFile, os_path_isfile.
  unfold bind at 1. unfold act at 1. rewrite Hzip. simpl.
  unfold bind at 1.
  destruct (load_source_properties _ _ _) as [o s1]. simpl in *. subst o s1.
  unfold_run. rewrite Hrev. simpl. reflexivity.
Qed.

(** *** Runs that return, and what they log *)

Lemma bind_inv {A B} (m : M W A) (k : A → M W B) (s s2 : state W) (b : B) :
  bind m k s = (Ret b, s2) → ∃ a s1, m s = (Ret a, s1) ∧ k a s1 = (Ret b, s2).
Proof.
  unfold bind. destruct (m s) as [[a | e] s1]; intros Hk; [eauto | discriminate].
Qed.

Lemma act_inv {A} (c : call) (f : W → outcome A * W) (s s1 : state W) (a : A) :
  act c f s = (Ret a, s1) →
  ∃ w', f (world s) = (Ret a, w') ∧ s1 = St w' (log s ++ [ok c]).
Proof.
  unfold act. destruct (f (world s)) as [[a' | e] w']; simpl; intros Heq; inversion Heq; eauto.
Qed.

Lemma act_log {A} (c : call) (f : W → outcome A * W) (s s1 : state W) (a : A) :
  act c f s = (Ret a, s1) → log s1 = log s ++ [ok c].
Proof. intros Hact. apply act_inv in Hact as (w' & _ & ->). reflexivity. Qed.

Lemma try_finally_inv {A} (body : M W A) (final : M W unit) (s s2 : state W) (a : A) :
  try_finally body final s = (Ret a, s2) →
  ∃ s1, body s = (Ret a, s1) ∧ final s1 = (Ret (), s2).
Proof.
  unfold try_finally. destruct (body s) as [o s1].
  destruct (final s1) as [[[] | e] s2'] eqn:Hfinal; intros Heq; inversion Heq; subst; eauto.
Qed.

Lemma for_each_copy_log (dst src : string) (files : list string) (s s1 : state W) :
  for_each files (fun f => shutil_copy2 (os_path_join src [f]) dst) s = (Ret (), s1) →
  log s1 = log s ++ List.map (fun f => ok (Copy2 (os_path_join src [f]) dst)) files.
Proof.
  revert s. induction files as [| f files IH]; intros s Hloop; simpl in *.
  - inversion Hloop; subst. rewrite app_nil_r. reflexivity.
  - apply bind_inv in Hloop as ([] & s' & Hcopy & Hloop).
    apply act_log in Hcopy. rewrite (IH _ Hloop), Hcopy, <- app_assoc. reflexivity.
Qed.

Lemma cpy_log (dst src : string) (files : list string) (s s1 : state W) :
  cpy dst src files s = (Ret (), s1) → log s1 = log s ++ cpy_events dst src files.
Proof.
  unfold cpy, cpy_events. intros Hrun.
  apply bind_inv in Hrun as ([] & s0 & Hmk & Hloop).
  apply act_log in Hmk. apply for_each_copy_log in Hloop.
  rewrite Hloop, Hmk, <- app_assoc. reflexivity.
Qed.

Lemma copy_from_apex_log (src dst : string) (s s1 : state W) :
  copy_from_apex src dst s = (Ret (), s1) → log s1 = log s ++ copy_from_apex_events src dst.
Proof.
  unfold copy_from_apex, copy_from_apex_events. intros Hrun.
  apply bind_inv in Hrun as ([] & s0 & Hbin & Hlib).
  apply cpy_log in Hbin. apply cpy_log in Hlib.
  rewrite Hlib, Hbin, <- app_assoc. reflexivity.
Qed.

Lemma extract_apex_and_copy_log (apex dst : string) (s s1 : state W) :
  extract_apex_and_copy apex dst s = (Ret (), s1) →
  ∃ tempdir, log s1 = log s ++ extract_apex_and_copy_events apex dst tempdir.
Proof.
  unfold extract_apex_and_copy, extract_apex_and_copy_events. intros Hrun.
  apply bind_inv in Hrun as (tempdir & s0 & Hmk & Hrun).
  apply try_finally_inv in Hrun as (s2 & Hbody & Hfinal).
  apply bind_inv in Hbody as ([] & s3 & Hextract & Hcopy).
  apply act_log in Hmk. apply act_log in Hextract. apply act_log in Hfinal.
  apply copy_from_apex_log in Hcopy.
  exists tempdir. rewrite Hfinal, Hcopy, Hextract, Hmk.
  rewrite <- !app_assoc. reflexivity.
Qed.

Lemma copy_from_img_log (src dst : string) (s s1 : state W) :
  copy_from_img src dst s = (Ret (), s1) → log s1 = log s ++ copy_from_img_events dst.
Proof.
  unfold copy_from_img, copy_from_img_events. intros Hrun.
  apply bind_inv in Hrun as ([] & s0 & Hmk & Hopen).
  apply act_log in Hmk. apply act_log in Hopen.
  rewrite Hopen, Hmk, <- app_assoc. reflexivity.
Qed.

Lemma mount_body_log (img dst : string) (mkdir : bool) (s s1 : state W) :
  mount_body img dst (os_path_join dst ["mount"]) mkdir s = (Ret (), s1) →
  ∃ tempdir,
    log s1 = log s
      ++ (if mkdir then [ok (Makedirs (os_path_join dst ["mount"]) false)] else [])
      ++ [ok (Run (mount_argv img (os_path_join dst ["mount"])) None)]
      ++ copy_from_img_events dst
      ++ extract_apex_and_copy_events (runtime_apex_path (os_path_join dst ["mount"]))
           (os_path_join dst ["system"]) tempdir.
Proof.
  unfold mount_body. intros Hrun.
  apply bind_inv in Hrun as ([] & s0 & Hmk & Hrun).
  apply bind_inv in Hrun as (code & s2 & Hmount & Hrun).
  apply bind_inv in Hrun as ([] & s3 & Himg & Hapex).
  apply act_log in Hmount. apply copy_from_img_log in Himg.
  apply extract_apex_and_copy_log in Hapex as (tempdir & Hapex).
  exists tempdir. unfold runtime_apex_path. rewrite Hapex, Himg, Hmount.
  destruct mkdir.
  - apply act_log in Hmk. rewrite Hmk, <- !app_assoc. reflexivity.
  - inversion Hmk; subst. rewrite <- !app_assoc. reflexivity.
Qed.

Lemma mount_final_log (tempdir : string) (mkdir : bool) (s s1 : state W) :
  mount_final tempdir mkdir s = (Ret (), s1) →
  log s1 = log s ++ [ok (Run (umount_argv tempdir) None)]
             ++ (if mkdir then [ok (Rmdir tempdir)] else []).
Proof.
  unfold mount_final. intros Hrun.
  apply bind_inv in Hrun as (code & s0 & Humount & Hrm).
  apply act_log in Humount. destruct mkdir.
  - apply act_log in Hrm. rewrite Hrm, Humount, <- app_assoc. reflexivity.
  - inversion Hrm; subst. rewrite Humount. reflexivity.
Qed.

(** The whole log of a mount/copy step that returns. *)
Lemma mount_img_and_copy_log (img dst : string) (s s1 : state W) :
  mount_img_and_copy img dst s = (Ret (), s1) →
  ∃ tempdir,
    log s1 = log s ++
      mount_img_and_copy_events img dst
        (negb (plat_isdir (os_path_join dst ["mount"]) (world s))) tempdir.
Proof.
  unfold mount_img_and_copy, mount_img_and_copy_events, os_path_isdir. intros Hrun.
  apply bind_inv in Hrun as (isdir & s0 & Hq & Hrun).
  unfold query in Hq. inversion Hq; subst; clear Hq.
  apply try_finally_inv in Hrun as (s2 & Hbody & Hfinal).
  apply mount_body_log in Hbody as (tempdir & Hbody).
  apply mount_final_log in Hfinal.
  exists tempdir. rewrite Hfinal, Hbody, <- !app_assoc. reflexivity.
Qed.

(** *** The mount/copy step *)

(** C4, as the script has it: a mount/copy step that returns has copied
    exactly four files, each copy having returned: [linker64] out of
    [bin] and [libc.so], [libm.so], [libdl.so] out of [lib64/bionic] of
    the directory into which the runtime APEX was extracted, into
    [system/bin] and [system/lib64] below the output directory. *)
Theorem mount_copies_four (img dst : string) (s s1 : state W) :
  mount_img_and_copy img dst s = (Ret (), s1) →
  ∃ tempdir,
    In (ok (RunExtract (runtime_apex_path (os_path_join dst ["mount"])) tempdir
              "/usr/sbin/debugfs")) (log s1) ∧
    copies (log s1) = copies (log s) ++ runtime_copies tempdir dst.
Proof.
  intros Hrun. apply mount_img_and_copy_log in Hrun as (tempdir & Hlog).
  exists tempdir. rewrite Hlog. split.
  - apply in_or_app. right. unfold mount_img_and_copy_events.
    destruct (negb _); simpl; tauto.
  - unfold copies. rewrite List.filter_app. f_equal.
    unfold mount_img_and_copy_events. destruct (negb _); reflexivity.
Qed.

(** *** Runs only add to the log *)

Lemma appends_ret {A} (a : A) : appends (ret a : M W A).
Proof. intros s. exists []. simpl. rewrite app_nil_r. reflexivity. Qed.

Lemma appends_raise {A} (e : exn) : appends (raise e : M W A).
Proof. intros s. exists []. simpl. rewrite app_nil_r. reflexivity. Qed.

Lemma appends_lift {A} (o : outcome A) : appends (lift o : M W A).
Proof. intros s. exists []. simpl. rewrite app_nil_r. reflexivity. Qed.

Lemma appends_query {A} (f : W → A) : appends (query f).
Proof. intros s. exists []. simpl. rewrite app_nil_r. reflexivity. Qed.

Lemma appends_act {A} (c : call) (f : W → outcome A * W) : appends (act c f).
Proof.
  intros s. unfold act. destruct (f (world s)) as [o w']. simpl. eauto.
Qed.

Lemma appends_bind {A B} (m : M W A) (k : A → M W B) :
  appends m → (∀ a, appends (k a)) → appends (bind m k).
Proof.
  intros Hm Hk s. unfold bind. destruct (Hm s) as [evs Hevs].
  destruct (m s) as [[a | e] s1]; simpl in *.
  - destruct (Hk a s1) as [evs' Hevs']. exists (evs ++ evs').
    rewrite Hevs', Hevs, app_assoc. reflexivity.
  - eauto.
Qed.

Lemma appends_try_finally {A} (body : M W A) (final : M W unit) :
  appends body → appends final → appends (try_finally body final).
Proof.
  intros Hbody Hfinal s. unfold try_finally. destruct (Hbody s) as [evs Hevs].
  destruct (body s) as [o s1]. simpl in *. destruct (Hfinal s1) as [evs' Hevs'].
  exists (evs ++ evs'). rewrite app_assoc, <- Hevs.
  destruct (final s1) as [[[] | e] s2]; simpl in *; exact Hevs'.
Qed.

Lemma appends_for_each {A} (files : list A) (body : A → M W unit) :
  (∀ f, appends (body f)) → appends (for_each files body).
Proof.
  intros Hbody. induction files as [| f files IH]; simpl.
  - apply appends_ret.
  - apply appends_bind; [apply Hbody | intros _; exact IH].
Qed.

Lemma appends_if {A} (b : bool) (m1 m2 : M W A) :
  appends m1 → appends m2 → appends (if b then m1 else m2).
Proof. destruct b; auto. Qed.

Lemma appends_In {A} (m : M W A) (s : state W) (e : event) :
  appends m → In e (log s) → In e (log (snd (m s))).
Proof.
  intros Hm Hin. destruct (Hm s) as [evs ->]. apply in_or_app. left. exact Hin.
Qed.

Create HintDb appends.

#[local] Hint Resolve appends_ret appends_raise appends_lift appends_query appends_act
  appends_bind appends_try_finally appends_for_each appends_if : appends.

Lemma appends_cpy (dst src : string) (files : list string) : appends (cpy dst src files).
Proof. unfold cpy, os_makedirs, shutil_copy2. auto 10 with appends. Qed.

#[local] Hint Resolve appends_cpy : appends.

Lemma appends_copy_from_apex (src dst : string) : appends (copy_from_apex src dst).
Proof. unfold copy_from_apex. auto with appends. Qed.

#[local] Hint Resolve appends_copy_from_apex : appends.

Lemma appends_extract_apex_and_copy (apex dst : string) :
  appends (extract_apex_and_copy apex dst).
Proof.
  unfold extract_apex_and_copy, tempfile_TemporaryDirectory, deapexer_RunExtract,
    TemporaryDirectory_cleanup.
  auto 10 with appends.
Qed.

Lemma appends_copy_from_img (src dst : string) : appends (copy_from_img src dst).
Proof. unfold copy_from_img, os_makedirs, open_write. auto with appends. Qed.

#[local] Hint Resolve appends_extract_apex_and_copy appends_copy_from_img : appends.

Lemma appends_mount_body (img dst tempdir : string) (mkdir : bool) :
  appends (mount_body img dst tempdir mkdir).
Proof. unfold mount_body, os_makedirs, subprocess_run. auto 10 with appends. Qed.

Lemma appends_mount_final (tempdir : string) (mkdir : bool) :
  appends (mount_final tempdir mkdir).
Proof. unfold mount_final, os_rmdir, subprocess_run. auto 10 with appends. Qed.

#[local] Hint Resolve appends_mount_body appends_mount_final : appends.

(** What the [finally] block adds to the log: the unmount, and after it
    the removal of the mount directory exactly when the directory was to
    be created and the unmount call returned. *)
Lemma mount_final_events (tempdir : string) (mkdir : bool) (s : state W) :
  ∃ (raised : option exn) (tail : list event),
    log (snd (mount_final tempdir mkdir s)) =
      log s ++ Ev (Run (umount_argv tempdir) None) raised :: tail ∧
    (mkdir = true ∧ raised = None → ∃ r, tail = [Ev (Rmdir tempdir) r]) ∧
    (mkdir = false ∨ raised ≠ None → tail = []).
Proof.
  unfold mount_final, subprocess_run, os_rmdir. unfold_run.
  destruct (plat_run (umount_argv tempdir) None (world s)) as [[code | e] w1]; simpl.
  - destruct mkdir; simpl.
    + destruct (plat_rmdir tempdir w1) as [o w2]. simpl.
      exists None, [Ev (Rmdir tempdir) (raised o)]. rewrite <- app_assoc. simpl.
      split; [reflexivity |]. split; [eauto |]. intros [? | ?]; congruence.
    + exists None, []. split; [reflexivity |]. split; [| reflexivity].
      intros [? _]. discriminate.
  - exists (Some e), []. split; [reflexivity |]. split; [| reflexivity].
    intros [_ ?]. discriminate.
Qed.

(** C5, as the script has it: however the [try] block is left, by
    returning or by an exception of any of its calls, the unmount command
    is run next; after it the removal of the mount directory is attempted
    exactly when the directory did not exist at the start of the step and
    the unmount call returned; and a step whose [try] block raised ends
    with an exception. *)
Theorem mount_always_unmounts (img dst : string) (s : state W) :
  let tempdir := os_path_join dst ["mount"] in
  let mkdir := negb (plat_isdir tempdir (world s)) in
  let after_try := snd (mount_body img dst tempdir mkdir s) in
  ∃ (raised : option exn) (tail : list event),
    (∃ body_events, log after_try = log s ++ body_events) ∧
    log (snd (mount_img_and_copy img dst s)) =
      log after_try ++ Ev (Run (umount_argv tempdir) None) raised :: tail ∧
    (mkdir = true ∧ raised = None → ∃ r, tail = [Ev (Rmdir tempdir) r]) ∧
    (mkdir = false ∨ raised ≠ None → tail = []) ∧
    (∀ e, fst (mount_body img dst tempdir mkdir s) = Raise e →
          ∃ e', fst (mount_img_and_copy img dst s) = Raise e').
Proof.
  intros tempdir mkdir after_try.
  destruct (mount_final_events tempdir mkdir after_try) as (raised & tail & Hlog & Hrm & Hkeep).
  exists raised, tail. split; [apply appends_mount_body |].
  assert (Hrun : mount_img_and_copy img dst s =
                 try_finally (mount_body img dst tempdir mkdir) (mount_final tempdir mkdir) s)
    by reflexivity.
  rewrite Hrun. unfold try_finally. unfold after_try in *.
  destruct (mount_body img dst tempdir mkdir s) as [o s1]. cbn [fst snd] in *.
  split; [| split; [assumption | split; [assumption |]]].
  - rewrite <- Hlog. destruct (mount_final tempdir mkdir s1) as [[[] | e] s2]; reflexivity.
  - intros e ->. destruct (mount_final tempdir mkdir s1) as [[[] | e'] s2]; eauto.
Qed.

Lemma starts_with_act {A} (c : call) (f : W → outcome A * W) : starts_with c (act c f).
Proof.
  intros s. unfold act. destruct (f (world s)) as [o w']. simpl.
  exists (raised o), []. reflexivity.
Qed.

Lemma starts_with_bind {A B} (c : call) (m : M W A) (k : A → M W B) :
  starts_with c m → (∀ a, appends (k a)) → starts_with c (bind m k).
Proof.
  intros Hm Hk s. unfold bind. destruct (Hm s) as (r & evs & Hevs).
  destruct (m s) as [[a | e] s1]; simpl in *.
  - destruct (Hk a s1) as [evs' Hevs']. exists r, (evs ++ evs').
    rewrite Hevs', Hevs, <- app_assoc. reflexivity.
  - eauto.
Qed.

Lemma starts_with_try_finally {A} (c : call) (body : M W A) (final : M W unit) :
  starts_with c body → appends final → starts_with c (try_finally body final).
Proof.
  intros Hbody Hfinal s. unfold try_finally. destruct (Hbody s) as (r & evs & Hevs).
  destruct (body s) as [o s1]. simpl in *. destruct (Hfinal s1) as [evs' Hevs'].
  exists r, (evs ++ evs').
  replace (log s ++ Ev c r :: evs ++ evs') with (log s1 ++ evs')
    by (rewrite Hevs, <- app_assoc; reflexivity).
  destruct (final s1) as [[[] | e] s2]; simpl in *; exact Hevs'.
Qed.

Lemma act_ret {A} (c : call) (f : W → outcome A * W) (s : state W) (a : A) (w' : W) :
  f (world s) = (Ret a, w') → act c f s = (Ret a, St w' (log s ++ [ok c])).
Proof. intros Hf. unfold act. rewrite Hf. reflexivity. Qed.

Lemma try_finally_bind_ret {A B} (m : M W A) (k : A → M W B) (final : M W unit)
    (s s' : state W) (a : A) :
  m s = (Ret a, s') → try_finally (bind m k) final s = try_finally (k a) final s'.
Proof. intros Hm. unfold try_finally, bind. rewrite Hm. reflexivity. Qed.

Lemma starts_with_copy_from_img (src dst : string) :
  starts_with (Makedirs (os_path_join dst ["linkerconfig"]) true) (copy_from_img src dst).
Proof.
  unfold copy_from_img, os_makedirs, open_write.
  apply starts_with_bind; [apply starts_with_act | auto with appends].
Qed.

Lemma bind_assoc {A B C} (m : M W A) (k1 : A → M W B) (k2 : B → M W C) (s : state W) :
  bind (bind m k1) k2 s = bind m (fun a => bind (k1 a) k2) s.
Proof. unfold bind. destruct (m s) as [[a | e] s1]; reflexivity. Qed.

(** C10: when the mount command returns a nonzero exit status, no
    exception is raised for it: the run goes on with the rest of the
    [try] block. Its next call creates [linkerconfig] in the output
    tree; when that returns, the next call opens
    [linkerconfig/ld.config.txt] in mode [ba], which creates the file;
    when that returns and the temporary directory is made, the next call
    is the APEX extractor on the runtime APEX below the mount directory.
    The [finally] block likewise goes on after the unmount command
    whatever status it returns. *)
Theorem mount_status_ignored (img dst : string) (s s0 : state W) (code : Z) (w1 : W) :
  let tempdir := os_path_join dst ["mount"] in
  let mkdir := negb (plat_isdir tempdir (world s)) in
  let s1 := St w1 (log s0 ++ [ok (Run (mount_argv img tempdir) None)]) in
  let linkerconfig := os_path_join dst ["linkerconfig"] in
  (if mkdir then os_makedirs tempdir false else ret ()) s = (Ret (), s0) →
  plat_run (mount_argv img tempdir) None (world s0) = (Ret code, w1) →
  code ≠ 0 →
  mount_img_and_copy img dst s =
    try_finally
      (copy_from_img tempdir dst ;;
       extract_apex_and_copy (runtime_apex_path tempdir) (os_path_join dst ["system"]))
      (mount_final tempdir mkdir) s1
  ∧ (∃ r rest,
       log (snd (mount_img_and_copy img dst s)) =
         log s1 ++ Ev (Makedirs linkerconfig true) r :: rest)
  ∧ (∀ w2 : W,
       plat_makedirs linkerconfig true w1 = (Ret (), w2) →
       ∃ r rest,
         log (snd (mount_img_and_copy img dst s)) =
           log s1 ++ ok (Makedirs linkerconfig true)
             :: Ev (Open (os_path_join linkerconfig ["ld.config.txt"]) "ba") r :: rest)
  ∧ (∀ (w2 w3 w4 : W) (extracted : string),
       plat_makedirs linkerconfig true w1 = (Ret (), w2) →
       plat_open_write (os_path_join linkerconfig ["ld.config.txt"]) "ba" w2 = (Ret (), w3) →
       plat_mkdtemp w3 = (Ret extracted, w4) →
       ∃ r rest,
         log (snd (mount_img_and_copy img dst s)) =
           log s1 ++ ok (Makedirs linkerconfig true)
             :: ok (Open (os_path_join linkerconfig ["ld.config.txt"]) "ba")
             :: ok MkTemp
             :: Ev (RunExtract (runtime_apex_path tempdir) extracted "/usr/sbin/debugfs") r
             :: rest)
  ∧ (∀ (s2 : state W) (extracted : string) (w3 : W),
       copy_from_img tempdir dst s1 = (Ret (), s2) →
       plat_mkdtemp (world s2) = (Ret extracted, w3) →
       ∃ r, In (Ev (RunExtract (runtime_apex_path tempdir) extracted "/usr/sbin/debugfs") r)
               (log (snd (mount_img_and_copy img dst s))))
  ∧ (∀ (s2 : state W) (code' : Z) (w3 : W),
       plat_run (umount_argv tempdir) None (world s2) = (Ret code', w3) →
       mount_final tempdir mkdir s2 =
         (if mkdir then os_rmdir tempdir else ret ())
           (St w3 (log s2 ++ [ok (Run (umount_argv tempdir) None)]))).
Proof.
  intros tempdir mkdir s1 linkerconfig Hmk Hmount _.
  assert (Heq : mount_img_and_copy img dst s =
    try_finally
      (copy_from_img tempdir dst ;;
       extract_apex_and_copy (runtime_apex_path tempdir) (os_path_join dst ["system"]))
      (mount_final tempdir mkdir) s1).
  { unfold mount_img_and_copy, os_path_isdir. unfold bind at 1. unfold query.
    fold tempdir. fold mkdir. unfold mount_body.
    rewrite (try_finally_bind_ret _ _ _ _ _ _ Hmk). unfold subprocess_run.
    rewrite (try_finally_bind_ret _ _ _ _ _ _ (act_ret _ _ _ _ _ Hmount)). reflexivity. }
  assert (Hopen : ∀ w2 : W,
    plat_makedirs linkerconfig true w1 = (Ret (), w2) →
    mount_img_and_copy img dst s =
      try_finally
        (open_write (os_path_join linkerconfig ["ld.config.txt"]) "ba" ;;
         extract_apex_and_copy (runtime_apex_path tempdir) (os_path_join dst ["system"]))
        (mount_final tempdir mkdir)
        (St w2 (log s1 ++ [ok (Makedirs linkerconfig true)]))).
  { intros w2 Hlc. rewrite Heq. unfold try_finally, copy_from_img. fold linkerconfig.
    rewrite bind_assoc. unfold bind at 1. unfold os_makedirs at 1.
    rewrite (act_ret _ _ s1 _ _ Hlc). reflexivity. }
  split; [exact Heq |]. split; [| split; [| split; [| split]]].
  - rewrite Heq.
    destruct (starts_with_try_finally (Makedirs (os_path_join dst ["linkerconfig"]) true)
                (copy_from_img tempdir dst ;;
                 extract_apex_and_copy (runtime_apex_path tempdir) (os_path_join dst ["system"]))
                (mount_final tempdir mkdir)) with (s := s1) as (r & rest & Hlog).
    + apply starts_with_bind; [apply starts_with_copy_from_img | auto with appends].
    + auto with appends.
    + eauto.
  - intros w2 Hlc. rewrite (Hopen w2 Hlc).
    match goal with
    | |- context [try_finally ?body ?final ?s2] =>
        destruct (starts_with_try_finally
                    (Open (os_path_join linkerconfig ["ld.config.txt"]) "ba")
                    body final) with (s := s2) as (r & rest & Hlog)
    end.
    + unfold open_write. apply starts_with_bind; [apply starts_with_act | auto with appends].
    + auto with appends.
    + exists r, rest. rewrite Hlog. cbn [log]. rewrite <- app_assoc. reflexivity.
  - intros w2 w3 w4 extracted Hlc Hld Htemp. rewrite (Hopen w2 Hlc).
    unfold open_write.
    match goal with
    | |- context [try_finally _ _ ?s2] =>
        rewrite (try_finally_bind_ret _ _ _ _ _ _ (act_ret _ _ s2 _ _ Hld))
    end.
    unfold extract_apex_and_copy, tempfile_TemporaryDirectory.
    match goal with
    | |- context [try_finally _ _ ?s3] =>
        rewrite (try_finally_bind_ret _ _ _ _ _ _ (act_ret MkTemp _ s3 _ _ Htemp))
    end.
    match goal with
    | |- context [try_finally ?body ?final ?s4] =>
        destruct (starts_with_try_finally
                    (RunExtract (runtime_apex_path tempdir) extracted "/usr/sbin/debugfs")
                    body final) with (s := s4) as (r & rest & Hlog)
    end.
    + apply starts_with_try_finally.
      * unfold deapexer_RunExtract.
        apply starts_with_bind; [apply starts_with_act | auto with appends].
      * unfold TemporaryDirectory_cleanup. auto with appends.
    + auto with appends.
    + exists r, rest. rewrite Hlog. cbn [log]. rewrite <- !app_assoc. reflexivity.
  - intros s2 extracted w3 Himg Htemp. rewrite Heq.
    rewrite (try_finally_bind_ret _ _ _ _ _ _ Himg).
    unfold extract_apex_and_copy, tempfile_TemporaryDirectory.
    rewrite (try_finally_bind_ret _ _ _ _ _ _ (act_ret MkTemp _ _ _ _ Htemp)).
    match goal with
    | |- context [try_finally ?body ?final ?s3] =>
        destruct (starts_with_try_finally
                    (RunExtract (runtime_apex_path tempdir) extracted "/usr/sbin/debugfs")
                    body final) with (s := s3) as (r & rest & Hlog)
    end.
    + apply starts_with_try_finally.
      * unfold deapexer_RunExtract.
        apply starts_with_bind; [apply starts_with_act | auto with appends].
      * unfold TemporaryDirectory_cleanup. auto with appends.
    + auto with appends.
    + exists r. rewrite Hlog. apply in_or_app. right. left. reflexivity.
  - intros s2 code' w3 Humount. unfold mount_final, subprocess_run.
    unfold bind. rewrite (act_ret _ _ _ _ _ Humount). reflexivity.
Qed.

End Properties.

(** ** Runs on the simulated platform *)

Import Sim Scenario.

(** C1 at [--api 30 --rev 5 --abi arm64-v8a --dir out] on a machine
    without an SDK: the run ends with [UnboundLocalError] and an empty
    log. *)
Lemma main_without_sdk_unbound_witness :
  arg_sdk args_A = None ∧ arg_rev args_A = 5 ∧
  main args_A (start fresh) = (Raise (UnboundLocalError "img"), start fresh).
Proof.
  split; [reflexivity |]. split; [reflexivity |].
  apply main_without_sdk_unbound; reflexivity.
Defined.

(** C9 with only [ANDROID_SDK_ROOT] set, and with [ANDROID_SDK_HOME]
    set to the empty string before it. *)
Lemma resolve_sdk_first_set_witness :
  resolve_sdk args_A (start root_only) =
    (Ret (set_sdk args_A (Some "/opt/sdk")), start root_only) ∧
  resolve_sdk args_A (start empty_home) = (Ret (set_sdk args_A (Some "")), start empty_home).
Proof.
  split.
  - rewrite (resolve_sdk_first_set args_A (start root_only)); reflexivity.
  - rewrite (resolve_sdk_first_set args_A (start empty_home)); reflexivity.
Defined.

(** C9 as stated fails: with [ANDROID_SDK_HOME] empty and
    [ANDROID_SDK_ROOT=/opt/sdk], the first non-empty value is [/opt/sdk],
    but the script resolves the SDK root to the empty string. *)
Lemma resolve_sdk_empty_home_wins :
  plat_getenv "ANDROID_SDK_HOME" empty_home = Some "" ∧
  plat_getenv "ANDROID_SDK_ROOT" empty_home = Some "/opt/sdk" ∧
  Spec.first_non_empty (plat_getenv "ANDROID_SDK_HOME" empty_home)
    (plat_getenv "ANDROID_SDK_ROOT" empty_home) = Some "/opt/sdk" ∧
  fst (resolve_sdk args_A (start empty_home)) = Ret (set_sdk args_A (Some "")) ∧
  fst (resolve_sdk args_A (start empty_home)) ≠ Ret (set_sdk args_A (Some "/opt/sdk")).
Proof. vm_compute. repeat split; try reflexivity. discriminate. Qed.

(** C3 on an archive that holds only [arm64-v8a/system.img]. *)
Lemma load_source_properties_archive_missing_witness :
  load_source_properties (archive bare_zip) "arm64-v8a" (start fresh) =
    (Raise (KeyError "arm64-v8a/source.properties"), start fresh).
Proof.
  apply (load_source_properties_archive_missing bare_zip "arm64-v8a" (start fresh)).
  vm_compute. reflexivity.
Defined.

(** The same through the extractor: a downloaded package without
    [source.properties] ends the run with [KeyError]. *)
Lemma extract_bare_package_raises :
  fst (extract_system_package "/work/out/pkg.zip" "arm64-v8a" "/work/out/android-30_r05"
         (start bare)) = Raise (KeyError "arm64-v8a/source.properties").
Proof. vm_compute. reflexivity. Qed.

(** And through [main], with [--sdk /opt/sdk] and the image missing
    from the SDK: the package is downloaded, and reading its properties
    ends the run. *)
Lemma main_bare_package_raises :
  fst (main (set_sdk args_A (Some "/opt/sdk")) (start bare_server)) =
    Raise (KeyError "arm64-v8a/source.properties") ∧
  List.map ev_call (log (snd (main (set_sdk args_A (Some "/opt/sdk")) (start bare_server)))) =
    [Open "/opt/sdk/system-images/android-30/google_apis/arm64-v8a/source.properties" "r";
     PrintLine "No system image arm64-v8a android-30 in SDK";
     PrintLine "Downloading package...";
     UrlOpen package_r5_url;
     Open "/work/out/arm64-v8a-30_r05.zip" "wb";
     CopyFileObj package_r5_url "/work/out/arm64-v8a-30_r05.zip";
     PrintLine "Extracting package...";
     OpenZip "/work/out/arm64-v8a-30_r05.zip"].
Proof. vm_compute. split; reflexivity. Qed.

(** A directory without [source.properties], by contrast, reads as the
    empty mapping. *)
Lemma load_source_properties_directory_missing :
  fst (load_source_properties builtins "/opt/sdk/none" (start fresh)) = Ret (Dict ∅).
Proof. vm_compute. reflexivity. Qed.

(** C7: the first call on the fresh machine downloads the package; the
    second call returns the same path and leaves the state, log
    included, as the first call left it. *)
Lemma download_cached_witness :
  fst downloaded = Ret "/work/out/arm64-v8a-30_r05.zip" ∧
  In (ok (UrlOpen package_r5_url)) (log (snd downloaded)) ∧
  download_system_package "/work/out" "arm64-v8a" 30 5 (snd downloaded) =
    (Ret "/work/out/arm64-v8a-30_r05.zip", snd downloaded).
Proof.
  split; [vm_compute; reflexivity |]. split; [vm_compute; tauto |].
  destruct (download_cached (W := machine) "/work/out" "arm64-v8a" 30 5) as [_ Hsecond].
  apply (Hsecond (start fresh)); vm_compute; reflexivity.
Defined.


(** C2 on the package whose properties say revision 0, with an image
    already at the destination: the theorem's case gives the destination
    path, not [None]. *)
Lemma extract_revision_zero_witness :
  extracted_stale =
    (Ret (Some img_A, 0), St stale [ok (OpenZip "/work/out/pkg.zip")]).
Proof.
  unfold extracted_stale.
  rewrite (extract_revision_zero (W := machine) "/work/out/pkg.zip" "arm64-v8a"
             "/work/out/android-30_r05" (start stale) stale_zip stale stale_prop).
  - vm_compute. reflexivity.
  - vm_compute. reflexivity.
  - vm_compute. reflexivity.
  - vm_compute. reflexivity.
Defined.

(** C2 as stated fails: the archive's properties give revision 0 and
    the extractor returns the image path with it, not [(None, 0)]. *)
Lemma stale_image_returned_with_revision_zero :
  fst (load_source_properties (archive stale_zip) "arm64-v8a" (start stale)) = Ret stale_prop ∧
  revision stale_prop = Ret 0 ∧
  plat_isfile img_A stale = true ∧
  fst extracted_stale = Ret (Some img_A, 0) ∧
  fst extracted_stale ≠ Ret (None, 0).
Proof. vm_compute. repeat split; try reflexivity. discriminate. Qed.

(** C4 on the extracted image: the step returns, and its copies are the
    four of the theorem, out of [/tmp/tmp0]. *)
Lemma mount_copies_four_witness :
  fst mounted = Ret () ∧
  copies (log (snd mounted)) = runtime_copies "/tmp/tmp0" dst_A.
Proof.
  split; [vm_compute; reflexivity |].
  destruct (mount_copies_four (W := machine) img_A dst_A (start extracted) (snd mounted))
    as (tempdir & Hextract & Hcopies).
  - vm_compute. reflexivity.
  - vm_compute. reflexivity.
Defined.

(** C4 as stated fails: after a step that returned, nothing is in [bin]
    or [lib64] directly under the output directory; the four files are
    under [system/bin] and [system/lib64], and the copies logged are not
    the copies the specification words. *)
Lemma mount_copies_below_system :
  fst mounted = Ret () ∧
  plat_isfile (dst_A ++ "/bin/linker64")%string (world (snd mounted)) = false ∧
  plat_isfile (dst_A ++ "/lib64/libc.so")%string (world (snd mounted)) = false ∧
  plat_isdir (dst_A ++ "/bin")%string (world (snd mounted)) = false ∧
  plat_isdir (dst_A ++ "/lib64")%string (world (snd mounted)) = false ∧
  plat_isfile (dst_A ++ "/system/bin/linker64")%string (world (snd mounted)) = true ∧
  plat_isfile (dst_A ++ "/system/lib64/libc.so")%string (world (snd mounted)) = true ∧
  plat_isfile (dst_A ++ "/system/lib64/libm.so")%string (world (snd mounted)) = true ∧
  plat_isfile (dst_A ++ "/system/lib64/libdl.so")%string (world (snd mounted)) = true ∧
  copies (log (snd mounted)) ≠ Spec.copies_as_stated "/tmp/tmp0" dst_A.
Proof. vm_compute. repeat split; try reflexivity. discriminate. Qed.

(** C5 on the image whose APEX lacks [libm.so]: the copy of [libm.so]
    raises, and the unmount follows in the log. *)
Lemma mount_always_unmounts_witness :
  ∃ (raised : option exn) (tail : list event),
    log (snd mounted_incomplete) =
      log (snd (mount_body img_A dst_A (os_path_join dst_A ["mount"]) true (start incomplete)))
      ++ Ev (Run (umount_argv (os_path_join dst_A ["mount"])) None) raised :: tail.
Proof.
  destruct (mount_always_unmounts (W := machine) img_A dst_A (start incomplete))
    as (raised & tail & _ & Hlog & _).
  exists raised, tail. exact Hlog.
Defined.

(** The whole of that run: the failed copy, the clean-up of the
    temporary directory, the unmount, the removal of the mount directory,
    and the copy's exception as the outcome. *)
Lemma mount_copy_failure_log :
  fst mounted_incomplete = Raise FileNotFoundError ∧
  log (snd mounted_incomplete) =
    [ok (Makedirs "/work/out/android-30_r05/arm64-v8a/mount" false);
     ok (Run (mount_argv img_A "/work/out/android-30_r05/arm64-v8a/mount") None);
     ok (Makedirs "/work/out/android-30_r05/arm64-v8a/linkerconfig" true);
     ok (Open "/work/out/android-30_r05/arm64-v8a/linkerconfig/ld.config.txt" "ba");
     ok MkTemp;
     ok (RunExtract
           "/work/out/android-30_r05/arm64-v8a/mount/system/apex/com.android.runtime.apex"
           "/tmp/tmp0" "/usr/sbin/debugfs");
     ok (Makedirs "/work/out/android-30_r05/arm64-v8a/system/bin" true);
     ok (Copy2 "/tmp/tmp0/bin/linker64" "/work/out/android-30_r05/arm64-v8a/system/bin");
     ok (Makedirs "/work/out/android-30_r05/arm64-v8a/system/lib64" true);
     ok (Copy2 "/tmp/tmp0/lib64/bionic/libc.so"
           "/work/out/android-30_r05/arm64-v8a/system/lib64");
     Ev (Copy2 "/tmp/tmp0/lib64/bionic/libm.so"
           "/work/out/android-30_r05/arm64-v8a/system/lib64") (Some FileNotFoundError);
     ok (Cleanup "/tmp/tmp0");
     ok (Run (umount_argv "/work/out/android-30_r05/arm64-v8a/mount") None);
     ok (Rmdir "/work/out/android-30_r05/arm64-v8a/mount")].
Proof. vm_compute. split; reflexivity. Qed.

(** On a machine without [sudo], the mount call raises, and so does the
    unmount call after it; nothing follows the unmount. *)
Lemma mount_without_sudo_log :
  fst mounted_without_sudo = Raise FileNotFoundError ∧
  log (snd mounted_without_sudo) =
    [ok (Makedirs "/work/out/android-30_r05/arm64-v8a/mount" false);
     Ev (Run (mount_argv img_A "/work/out/android-30_r05/arm64-v8a/mount") None)
        (Some FileNotFoundError);
     Ev (Run (umount_argv "/work/out/android-30_r05/arm64-v8a/mount") None)
        (Some FileNotFoundError)].
Proof. vm_compute. split; reflexivity. Qed.

(** C5 as stated fails: on a machine without [sudo] the step creates
    the mount directory and leaves it behind, since the unmount call
    raises before the removal. *)
Lemma mount_leaves_created_directory :
  created_by_tool (os_path_join dst_A ["mount"])
    (start (without_sudo extracted)) (snd mounted_without_sudo) ∧
  ¬ removed (os_path_join dst_A ["mount"]) (snd mounted_without_sudo) ∧
  ¬ removed_iff_created (os_path_join dst_A ["mount"])
      (start (without_sudo extracted)) (snd mounted_without_sudo).
Proof.
  assert (Hcreated : created_by_tool (os_path_join dst_A ["mount"])
            (start (without_sudo extracted)) (snd mounted_without_sudo)).
  { split; [vm_compute; reflexivity | vm_compute; tauto]. }
  assert (Hkept : ¬ removed (os_path_join dst_A ["mount"]) (snd mounted_without_sudo)).
  { unfold removed. vm_compute. discriminate. }
  split; [exact Hcreated |]. split; [exact Hkept |].
  intros [_ Hiff]. exact (Hkept (Hiff Hcreated)).
Qed.

(** C10 on the output tree whose [system.img] is no disk image: [mount]
    returns status 32, and the run goes on: it creates [linkerconfig],
    opens [linkerconfig/ld.config.txt] in mode [ba], which was not there
    and is there afterwards, and calls the extractor, which then finds no
    APEX below the mount directory. *)
Lemma mount_status_ignored_witness :
  plat_run (mount_argv img_A (os_path_join dst_A ["mount"])) None
    (world (snd (os_makedirs (os_path_join dst_A ["mount"]) false (start broken_image)))) =
    (Ret 32, world (snd (os_makedirs (os_path_join dst_A ["mount"]) false (start broken_image)))) ∧
  plat_isfile (os_path_join (os_path_join dst_A ["linkerconfig"]) ["ld.config.txt"])
    broken_image = false ∧
  plat_isfile (os_path_join (os_path_join dst_A ["linkerconfig"]) ["ld.config.txt"])
    (world (snd mounted_broken)) = true ∧
  ∃ r rest,
    log (snd mounted_broken) =
      [ok (Makedirs (os_path_join dst_A ["mount"]) false);
       ok (Run (mount_argv img_A (os_path_join dst_A ["mount"])) None);
       ok (Makedirs (os_path_join dst_A ["linkerconfig"]) true);
       ok (Open (os_path_join (os_path_join dst_A ["linkerconfig"]) ["ld.config.txt"]) "ba");
       ok MkTemp;
       Ev (RunExtract (runtime_apex_path (os_path_join dst_A ["mount"])) "/tmp/tmp0"
             "/usr/sbin/debugfs") r] ++ rest.
Proof.
  split; [vm_compute; reflexivity |].
  split; [vm_compute; reflexivity |].
  split; [vm_compute; reflexivity |].
  pose (w1 := world (snd (os_makedirs (os_path_join dst_A ["mount"]) false
                            (start broken_image)))).
  pose (w2 := snd (plat_makedirs (os_path_join dst_A ["linkerconfig"]) true w1)).
  pose (w3 := snd (plat_open_write
                     (os_path_join (os_path_join dst_A ["linkerconfig"]) ["ld.config.txt"])
                     "ba" w2)).
  pose (w4 := snd (plat_mkdtemp w3)).
  destruct (mount_status_ignored (W := machine) img_A dst_A (start broken_image)
              (snd (os_makedirs (os_path_join dst_A ["mount"]) false (start broken_image)))
              32 w1)
    as (_ & _ & _ & Hrun & _).
  - vm_compute. reflexivity.
  - vm_compute. reflexivity.
  - discriminate.
  - destruct (Hrun w2 w3 w4 "/tmp/tmp0") as (r & rest & Hlog).
    + vm_compute. reflexivity.
    + vm_compute. reflexivity.
    + vm_compute. reflexivity.
    + exists r, rest. unfold mounted_broken. rewrite Hlog. reflexivity.
Defined.

(** The whole of that run: every step after the failed mount is there,
    the extractor raises, and the [finally] block runs the unmount, whose
    status 32 is ignored as well, and removes the mount directory. *)
Lemma mount_broken_image_log :
  fst mounted_broken = Raise FileNotFoundError ∧
  List.map ev_call (log (snd mounted_broken)) =
    [Makedirs "/work/out/android-30_r05/arm64-v8a/mount" false;
     Run (mount_argv img_A "/work/out/android-30_r05/arm64-v8a/mount") None;
     Makedirs "/work/out/android-30_r05/arm64-v8a/linkerconfig" true;
     Open "/work/out/android-30_r05/arm64-v8a/linkerconfig/ld.config.txt" "ba";
     MkTemp;
     RunExtract "/work/out/android-30_r05/arm64-v8a/mount/system/apex/com.android.runtime.apex"
       "/tmp/tmp0" "/usr/sbin/debugfs";
     Cleanup "/tmp/tmp0";
     Run (umount_argv "/work/out/android-30_r05/arm64-v8a/mount") None;
     Rmdir "/work/out/android-30_r05/arm64-v8a/mount"].
Proof. vm_compute. split; reflexivity. Qed.

(** ** Further properties of the script *)

Section Coverage.
Context {W : Type} `{Platform W}.

(** *** Which calls a run makes *)

Lemma only_calls_ret {A} (allowed : call → bool) (a : A) : only_calls allowed (ret a : M W A).
Proof. intros s. exists []. simpl. rewrite app_nil_r. auto. Qed.

Lemma only_calls_raise {A} (allowed : call → bool) (e : exn) :
  only_calls allowed (raise e : M W A).
Proof. intros s. exists []. simpl. rewrite app_nil_r. auto. Qed.

Lemma only_calls_lift {A} (allowed : call → bool) (o : outcome A) :
  only_calls allowed (lift o : M W A).
Proof. intros s. exists []. simpl. rewrite app_nil_r. auto. Qed.

Lemma only_calls_query {A} (allowed : call → bool) (f : W → A) : only_calls allowed (query f).
Proof. intros s. exists []. simpl. rewrite app_nil_r. auto. Qed.

Lemma only_calls_act {A} (allowed : call → bool) (c : call) (f : W → outcome A * W) :
  allowed c = true → only_calls allowed (act c f).
Proof.
  intros Hc s. unfold act. destruct (f (world s)) as [o w']. simpl.
  exists [Ev c (raised o)]. simpl. rewrite Hc. auto.
Qed.

Lemma only_calls_bind {A B} (allowed : call → bool) (m : M W A) (k : A → M W B) :
  only_calls allowed m → (∀ a, only_calls allowed (k a)) → only_calls allowed (bind m k).
Proof.
  intros Hm Hk s. unfold bind. destruct (Hm s) as (evs & Hevs & Hall).
  destruct (m s) as [[a | e] s1]; simpl in *.
  - destruct (Hk a s1) as (evs' & Hevs' & Hall'). exists (evs ++ evs').
    rewrite Hevs', Hevs, app_assoc, forallb_app, Hall, Hall'. auto.
  - eauto.
Qed.

Lemma only_calls_try_finally {A} (allowed : call → bool) (body : M W A) (final : M W unit) :
  only_calls allowed body → only_calls allowed final →
  only_calls allowed (try_finally body final).
Proof.
  intros Hbody Hfinal s. unfold try_finally. destruct (Hbody s) as (evs & Hevs & Hall).
  destruct (body s) as [o s1]. simpl in *. destruct (Hfinal s1) as (evs' & Hevs' & Hall').
  exists (evs ++ evs'). rewrite forallb_app, Hall, Hall', app_assoc, <- Hevs.
  destruct (final s1) as [[[] | e] s2]; simpl in *; auto.
Qed.

Lemma only_calls_try_except {A} (allowed : call → bool) (body handler : M W A) :
  only_calls allowed body → only_calls allowed handler →
  only_calls allowed (try_except_FileNotFoundError body handler).
Proof.
  intros Hbody Hhandler s. unfold try_except_FileNotFoundError.
  destruct (Hbody s) as (evs & Hevs & Hall).
  destruct (body s) as [[a | e] s1]; simpl in *; [eauto |].
  destruct (Hhandler s1) as (evs' & Hevs' & Hall').
  destruct e; simpl in *; eauto.
  exists (evs ++ evs'). rewrite forallb_app, Hall, Hall', app_assoc, <- Hevs. auto.
Qed.

Lemma only_calls_for_each {A} (allowed : call → bool) (files : list A) (body : A → M W unit) :
  (∀ f, only_calls allowed (body f)) → only_calls allowed (for_each files body).
Proof.
  intros Hbody. induction files as [| f files IH]; simpl.
  - apply only_calls_ret.
  - apply only_calls_bind; [apply Hbody | intros _; exact IH].
Qed.

Lemma only_calls_if {A} (allowed : call → bool) (b : bool) (m1 m2 : M W A) :
  only_calls allowed m1 → only_calls allowed m2 → only_calls allowed (if b then m1 else m2).
Proof. destruct b; auto. Qed.

Lemma only_calls_not_In {A} (allowed : call → bool) (m : M W A) (s : state W) (e : event) :
  only_calls allowed m → allowed (ev_call e) = false →
  In e (log (snd (m s))) → In e (log s).
Proof.
  intros Hm He Hin. destruct (Hm s) as (evs & Hevs & Hall). rewrite Hevs in Hin.
  apply in_app_or in Hin as [Hin | Hin]; [exact Hin |].
  rewrite forallb_forall in Hall. specialize (Hall e Hin). congruence.
Qed.

Create HintDb only_calls.

#[local] Hint Resolve only_calls_ret only_calls_raise only_calls_lift only_calls_query
  only_calls_bind only_calls_try_finally only_calls_try_except only_calls_for_each
  only_calls_if : only_calls.

Lemma copy_from_apex_only_calls (allowed : call → bool) (src dst : string) :
  (∀ path exist_ok, allowed (Makedirs path exist_ok) = true) →
  (∀ from to, allowed (Copy2 from to) = true) →
  only_calls allowed (copy_from_apex src dst).
Proof.
  intros Hmk Hcp. unfold copy_from_apex, cpy, os_makedirs, shutil_copy2.
  repeat first
    [ apply only_calls_ret
    | apply only_calls_bind; [| intros ?]
    | apply only_calls_for_each; intros ?
    | apply only_calls_act; solve [apply Hmk | apply Hcp] ].
Qed.

(** The [try] and [finally] blocks of the mount/copy step make only
    calls of these kinds: directory creation, copies, file opening,
    subprocesses, the temporary directory and its clean-up, the
    extractor, and, when [mkdir] holds, the removal of [tempdir]. *)
Lemma mount_only_calls (allowed : call → bool) (img dst tempdir : string) (mkdir : bool) :
  (∀ path exist_ok, allowed (Makedirs path exist_ok) = true) →
  (∀ from to, allowed (Copy2 from to) = true) →
  (∀ path mode, allowed (Open path mode) = true) →
  (∀ argv cwd, allowed (Run argv cwd) = true) →
  allowed MkTemp = true →
  (∀ d, allowed (Cleanup d) = true) →
  (∀ apex dest debugfs, allowed (RunExtract apex dest debugfs) = true) →
  (mkdir = true → allowed (Rmdir tempdir) = true) →
  only_calls allowed (try_finally (mount_body img dst tempdir mkdir) (mount_final tempdir mkdir)).
Proof.
  intros Hmk Hcp Hop Hrun Htmp Hcl Hex Hrm.
  unfold mount_body, mount_final, copy_from_img, extract_apex_and_copy, os_makedirs,
    subprocess_run, open_write, tempfile_TemporaryDirectory, deapexer_RunExtract,
    TemporaryDirectory_cleanup, os_rmdir.
  destruct mkdir; cbv iota;
    repeat first
      [ apply copy_from_apex_only_calls; assumption
      | apply only_calls_ret
      | apply only_calls_try_finally
      | apply only_calls_bind; [| intros ?]
      | apply only_calls_act;
        solve [apply Hmk | apply Hop | apply Hrun | exact Htmp | apply Hcl | apply Hex
              | apply Hrm; reflexivity] ].
Qed.

(** The mount/copy step stays on the machine: none of the calls it
    adds to the log is a network call, whatever the platform answers. *)
Theorem mount_makes_no_network_call (img dst : string) (s : state W) :
  ∃ evs : list event,
    log (snd (mount_img_and_copy img dst s)) = log s ++ evs ∧
    forallb (fun e => negb (is_network (ev_call e))) evs = true.
Proof.
  revert s. change (only_calls (fun c => negb (is_network c)) (mount_img_and_copy img dst)).
  unfold mount_img_and_copy, os_path_isdir.
  apply only_calls_bind; [apply only_calls_query | intros isdir].
  apply mount_only_calls; reflexivity || (intros; reflexivity).
Qed.

(** A mount directory that exists when the step begins is never
    removed by it: no [os.rmdir] of it is among the calls added to the
    log, on any exit path. *)
Theorem mount_keeps_existing_directory (img dst : string) (s : state W) :
  plat_isdir (os_path_join dst ["mount"]) (world s) = true →
  ∃ evs : list event,
    log (snd (mount_img_and_copy img dst s)) = log s ++ evs ∧
    forallb (fun e => keeps (os_path_join dst ["mount"]) (ev_call e)) evs = true.
Proof.
  intros Hdir.
  assert (Hrun : mount_img_and_copy img dst s =
                 try_finally (mount_body img dst (os_path_join dst ["mount"]) false)
                   (mount_final (os_path_join dst ["mount"]) false) s).
  { unfold mount_img_and_copy, os_path_isdir. unfold bind at 1. unfold query.
    rewrite Hdir. reflexivity. }
  rewrite Hrun.
  apply (mount_only_calls (keeps (os_path_join dst ["mount"])) img dst
           (os_path_join dst ["mount"]) false); solve [intros; reflexivity | discriminate].
Qed.

(** *** The properties reader and the image locator *)

(** Only a missing file is forgiven: when opening [source.properties]
    of a directory raises anything but [FileNotFoundError], and when the
    parser rejects the text, the exception leaves
    [load_source_properties]. *)
Theorem load_source_properties_propagates (dir : string) (s : state W) (e : exn) :
  e ≠ FileNotFoundError →
  (∀ w', plat_open_read (os_path_join dir ["source.properties"]) (world s) = (Raise e, w') →
         fst (load_source_properties builtins dir s) = Raise e) ∧
  (∀ text w', plat_open_read (os_path_join dir ["source.properties"]) (world s) = (Ret text, w') →
              configparser_root text = Raise e →
              fst (load_source_properties builtins dir s) = Raise e).
Proof.
  intros Hne. split.
  - intros w' Hopen. unfold load_source_properties, mod_open, open_read. unfold_run.
    rewrite Hopen. destruct e; try reflexivity. contradiction.
  - intros text w' Hopen Hparse. unfold load_source_properties, mod_open, open_read.
    unfold_run. rewrite Hopen. simpl. rewrite Hparse. destruct e; try reflexivity.
    contradiction.
Qed.

(** The locator only reads: whatever the platform answers, the one
    call it adds to the log is the opening of [source.properties] in the
    image directory for reading. *)
Theorem lookup_only_reads_properties (sdk abi : string) (api : Z) (s : state W) :
  ∃ r : option exn,
    log (snd (lookup_system_image sdk abi api s)) =
      log s ++ [Ev (Open (os_path_join (system_image_dir sdk abi api) ["source.properties"]) "r") r].
Proof.
  unfold lookup_system_image, load_source_properties, mod_open, open_read, os_path_isfile.
  unfold_run.
  destruct (plat_open_read _ (world s)) as [[text | e] w1]; simpl.
  - exists None. destruct (configparser_root text) as [root | e]; simpl.
    + destruct (revision (Proxy root)); reflexivity.
    + destruct e; try reflexivity.
  - exists (Some e). destruct e; reflexivity.
Qed.

(** An image directory without [source.properties] is no error for the
    locator: the revision is 0, and the image path is returned if
    [system.img] is a file there. *)
Theorem lookup_without_properties (sdk abi : string) (api : Z) (s : state W) (w' : W) :
  plat_open_read (os_path_join (system_image_dir sdk abi api) ["source.properties"]) (world s)
    = (Raise FileNotFoundError, w') →
  fst (lookup_system_image sdk abi api s) =
    Ret (if plat_isfile (os_path_join (system_image_dir sdk abi api) ["system.img"]) w'
         then Some (os_path_join (system_image_dir sdk abi api) ["system.img"]) else None, 0).
Proof.
  intros Hopen. unfold lookup_system_image, os_path_isfile.
  unfold bind at 1.
  rewrite (load_source_properties_builtins_missing _ _ _ Hopen). reflexivity.
Qed.

(** *** The package fetcher *)

(** A download that fails at [urlopen] leaves no file behind: the
    exception leaves the fetcher with [urlopen] as the only call logged,
    so the package file is never opened for writing. *)
Theorem download_network_failure (dir abi : string) (api rev : Z) (s : state W)
    (e : exn) (w' : W) :
  plat_isfile (os_path_join dir [package_filename abi api rev]) (world s) = false →
  plat_urlopen (package_url (package_filename abi api rev)) (world s) = (Raise e, w') →
  download_system_package dir abi api rev s =
    (Raise e, St w' (log s ++ [Ev (UrlOpen (package_url (package_filename abi api rev)))
                                 (Some e)])).
Proof.
  intros Hfile Hurl. unfold download_system_package, fetch, os_path_isfile,
    urllib_request_urlopen. unfold_run. rewrite Hfile. simpl. rewrite Hurl. reflexivity.
Qed.

(** A download that goes through makes three calls in this order:
    [urlopen] on the package URL, opening the package path for writing,
    and the copy of the response into it. *)
Theorem download_fetches_in_order (dir abi : string) (api rev : Z) (s s1 : state W)
    (path : string) :
  plat_isfile (os_path_join dir [package_filename abi api rev]) (world s) = false →
  download_system_package dir abi api rev s = (Ret path, s1) →
  path = os_path_join dir [package_filename abi api rev] ∧
  log s1 = log s ++
    [ok (UrlOpen (package_url (package_filename abi api rev)));
     ok (Open path "wb");
     ok (CopyFileObj (package_url (package_filename abi api rev)) path)].
Proof.
  intros Hfile Hrun. pose proof (download_path _ _ _ _ _ _ _ Hrun) as ->.
  split; [reflexivity |]. revert Hrun.
  unfold download_system_package, fetch, os_path_isfile. unfold bind at 1. unfold query.
  rewrite Hfile. cbn [negb]. intros Hrun.
  apply bind_inv in Hrun as ([] & s2 & Hfetch & Hret). inversion Hret; subst; clear Hret.
  apply bind_inv in Hfetch as ([] & sa & Hurl & Hfetch).
  apply bind_inv in Hfetch as ([] & sb & Hopen & Hcopy).
  apply act_log in Hurl. apply act_log in Hopen. apply act_log in Hcopy.
  rewrite Hcopy, Hopen, Hurl, <- !app_assoc. reflexivity.
Qed.

(** *** The package extractor *)

(** With a nonzero revision in the archive and [system.img] already a
    file at the destination, nothing is extracted: the existing path is
    returned with the archive's revision. *)
Theorem extract_skips_existing_image (package abi dst : string) (s : state W)
    (z : ZipFile) (w1 : W) (prop : props) (found : Z) :
  plat_ZipFile package (world s) = (Ret z, w1) →
  fst (load_source_properties (archive z) abi
         (St w1 (log s ++ [ok (OpenZip package)]))) = Ret prop →
  revision prop = Ret found →
  found ≠ 0 →
  plat_isfile (os_path_join dst [abi; "system.img"]) w1 = true →
  extract_system_package package abi dst s =
    (Ret (Some (os_path_join dst [abi; "system.img"]), found),
     St w1 (log s ++ [ok (OpenZip package)])).
Proof.
  intros Hzip Hload Hrev Hfound Hfile.
  pose proof (load_source_properties_archive_state z abi
                (St w1 (log s ++ [ok (OpenZip package)]))) as Hstate.
  unfold extract_system_package, zipfile_ZipFile, os_path_isfile.
  unfold bind at 1. unfold act at 1. rewrite Hzip. cbn [raised].
  unfold bind at 1. fold (ok (OpenZip package)).
  destruct (load_source_properties _ _ _) as [o s1]. cbn [fst snd] in *. subst o s1.
  unfold_run. rewrite Hrev. cbn [world log].
  destruct (Z.eqb_spec found 0) as [-> | _]; [contradiction |].
  simpl. rewrite Hfile. simpl. rewrite ?Hfile. reflexivity.
Qed.

(** With a nonzero revision and no file at the destination,
    [system.img] is extracted from the ABI subdirectory of the archive,
    and the path that the extraction wrote is returned only if it is a
    file afterwards; otherwise no image is returned. *)
Theorem extract_checks_extracted_file (package abi dst : string) (s : state W)
    (z : ZipFile) (w1 w2 : W) (prop : props) (found : Z) (text written : string) :
  plat_ZipFile package (world s) = (Ret z, w1) →
  fst (load_source_properties (archive z) abi
         (St w1 (log s ++ [ok (OpenZip package)]))) = Ret prop →
  revision prop = Ret found →
  found ≠ 0 →
  plat_isfile (os_path_join dst [abi; "system.img"]) w1 = false →
  zip_members z !! os_path_join abi ["system.img"] = Some text →
  plat_extract z (os_path_join abi ["system.img"]) dst w1 = (Ret written, w2) →
  extract_system_package package abi dst s =
    (Ret (if plat_isfile written w2 then Some written else None, found),
     St w2 (log s ++ [ok (OpenZip package);
                      ok (ZipExtract (zip_filename z) (os_path_join abi ["system.img"]) dst)])).
Proof.
  intros Hzip Hload Hrev Hfound Hfile Hmember Hextract.
  pose proof (load_source_properties_archive_state z abi
                (St w1 (log s ++ [ok (OpenZip package)]))) as Hstate.
  unfold extract_system_package, zipfile_ZipFile, os_path_isfile, zip_extract.
  unfold bind at 1. unfold act at 1. rewrite Hzip. cbn [raised].
  unfold bind at 1. fold (ok (OpenZip package)).
  destruct (load_source_properties _ _ _) as [o s1]. cbn [fst snd] in *. subst o s1.
  rewrite Hmember. unfold_run. rewrite Hrev. cbn [world log].
  destruct (Z.eqb_spec found 0) as [-> | _]; [contradiction |].
  simpl. rewrite Hfile. simpl. rewrite Hextract. simpl.
  rewrite <- app_assoc. reflexivity.
Qed.

(** With a nonzero revision, no file at the destination and no
    [system.img] in the ABI subdirectory of the archive, the extractor
    raises [KeyError] without writing anything. *)
Theorem extract_missing_image (package abi dst : string) (s : state W)
    (z : ZipFile) (w1 : W) (prop : props) (found : Z) :
  plat_ZipFile package (world s) = (Ret z, w1) →
  fst (load_source_properties (archive z) abi
         (St w1 (log s ++ [ok (OpenZip package)]))) = Ret prop →
  revision prop = Ret found →
  found ≠ 0 →
  plat_isfile (os_path_join dst [abi; "system.img"]) w1 = false →
  zip_members z !! os_path_join abi ["system.img"] = None →
  extract_system_package package abi dst s =
    (Raise (KeyError (os_path_join abi ["system.img"])),
     St w1 (log s ++ [ok (OpenZip package)])).
Proof.
  intros Hzip Hload Hrev Hfound Hfile Hmember.
  pose proof (load_source_properties_archive_state z abi
                (St w1 (log s ++ [ok (OpenZip package)]))) as Hstate.
  unfold extract_system_package, zipfile_ZipFile, os_path_isfile, zip_extract.
  unfold bind at 1. unfold act at 1. rewrite Hzip. cbn [raised].
  unfold bind at 1. fold (ok (OpenZip package)).
  destruct (load_source_properties _ _ _) as [o s1]. cbn [fst snd] in *. subst o s1.
  rewrite Hmember. unfold_run. rewrite Hrev. cbn [world log].
  destruct (Z.eqb_spec found 0) as [-> | _]; [contradiction |].
  simpl. rewrite Hfile. simpl. rewrite ?Hfile. reflexivity.
Qed.

(** *** Copying out of the APEX *)

Lemma for_each_app {A} (files1 files2 : list A) (body : A → M W unit) (s : state W) :
  for_each (files1 ++ files2) body s =
    bind (for_each files1 body) (fun _ => for_each files2 body) s.
Proof.
  revert s. induction files1 as [| f files1 IH]; intros s; simpl.
  - reflexivity.
  - unfold bind. destruct (body f s) as [[[] | e] s1]; [| reflexivity].
    rewrite IH. reflexivity.
Qed.

(** [cpy] stops at the first copy that raises: when the directory was
    made and the files before [f] were copied, and the copy of [f]
    raises, the exception leaves [cpy] and none of the files after [f] is
    copied. *)
Theorem cpy_stops_at_first_failure (dst src : string) (before : list string) (f : string)
    (rest : list string) (s s1 : state W) (e : exn) (w' : W) :
  cpy dst src before s = (Ret (), s1) →
  plat_copy2 (os_path_join src [f]) dst (world s1) = (Raise e, w') →
  cpy dst src (before ++ f :: rest) s =
    (Raise e,
     St w' (log s ++ cpy_events dst src before
              ++ [Ev (Copy2 (os_path_join src [f]) dst) (Some e)])).
Proof.
  intros Hbefore Hcopy. pose proof (cpy_log _ _ _ _ _ Hbefore) as Hlog.
  unfold cpy in *. apply bind_inv in Hbefore as ([] & s0 & Hmk & Hloop).
  unfold bind at 1. rewrite Hmk. rewrite for_each_app. unfold bind at 1. rewrite Hloop.
  cbn [for_each]. unfold bind at 1. unfold shutil_copy2 at 1. unfold act at 1.
  rewrite Hcopy. cbn [raised]. rewrite Hlog, <- app_assoc. reflexivity.
Qed.

(** Once the temporary directory is made, its clean-up is the last
    call of [extract_apex_and_copy], however the extraction and the
    copies end; and when the extractor raises, nothing is copied. *)
Theorem extract_apex_cleans_up (apex dst : string) (s : state W) (tempdir : string) (w1 : W) :
  plat_mkdtemp (world s) = (Ret tempdir, w1) →
  ∃ (evs : list event) (r : option exn),
    log (snd (extract_apex_and_copy apex dst s)) =
      log s ++ ok MkTemp :: evs ++ [Ev (Cleanup tempdir) r] ∧
    (∀ e w2, plat_RunExtract apex tempdir "/usr/sbin/debugfs" w1 = (Raise e, w2) →
             evs = [Ev (RunExtract apex tempdir "/usr/sbin/debugfs") (Some e)]).
Proof.
  intros Htemp. unfold extract_apex_and_copy, tempfile_TemporaryDirectory.
  unfold bind at 1. rewrite (act_ret MkTemp _ _ _ _ Htemp).
  unfold try_finally, TemporaryDirectory_cleanup.
  set (s0 := St w1 (log s ++ [ok MkTemp])).
  destruct (appends_bind (deapexer_RunExtract apex tempdir "/usr/sbin/debugfs")
              (fun _ => copy_from_apex tempdir dst)
              ltac:(unfold deapexer_RunExtract; apply appends_act)
              ltac:(intros; apply appends_copy_from_apex) s0) as [evs Hevs].
  assert (Hraise : ∀ e w2,
            plat_RunExtract apex tempdir "/usr/sbin/debugfs" w1 = (Raise e, w2) →
            evs = [Ev (RunExtract apex tempdir "/usr/sbin/debugfs") (Some e)]).
  { intros e w2 Hextract. revert Hevs. unfold bind, deapexer_RunExtract, act.
    cbn [world s0]. rewrite Hextract. cbn [snd log raised s0].
    intros Hevs. apply app_inv_head in Hevs. congruence. }
  destruct ((deapexer_RunExtract apex tempdir "/usr/sbin/debugfs" ;;
             copy_from_apex tempdir dst) s0) as [o s2]. cbn [snd] in Hevs.
  unfold act. destruct (plat_cleanup tempdir (world s2)) as [oc w3].
  exists evs, (raised oc). split; [| exact Hraise].
  replace (log s ++ ok MkTemp :: evs ++ [Ev (Cleanup tempdir) (raised oc)])
    with (log s2 ++ [Ev (Cleanup tempdir) (raised oc)])
    by (rewrite Hevs; unfold s0; cbn [log]; rewrite <- !app_assoc; reflexivity).
  destruct oc as [[] | ec]; reflexivity.
Qed.

(** A missing linker ends [copy_from_apex] before [lib64] is touched:
    when the copy of [linker64] raises, the exception leaves
    [copy_from_apex] and neither the [lib64] directory is made nor a
    library copied. *)
Theorem copy_from_apex_linker_failure (src dst : string) (s : state W) (e : exn) (w1 w2 : W) :
  plat_makedirs (os_path_join dst ["bin"]) true (world s) = (Ret (), w1) →
  plat_copy2 (os_path_join (os_path_join src ["bin"]) ["linker64"])
    (os_path_join dst ["bin"]) w1 = (Raise e, w2) →
  copy_from_apex src dst s =
    (Raise e,
     St w2 (log s ++ [ok (Makedirs (os_path_join dst ["bin"]) true);
                      Ev (Copy2 (os_path_join (os_path_join src ["bin"]) ["linker64"])
                            (os_path_join dst ["bin"])) (Some e)])).
Proof.
  intros Hmk Hcopy. unfold copy_from_apex, cpy. cbn [for_each].
  unfold bind, os_makedirs, shutil_copy2, act. rewrite Hmk. cbn [world log raised].
  rewrite Hcopy. cbn [raised]. rewrite <- app_assoc. reflexivity.
Qed.

(** *** Packaging *)

(** A template that does not render stops the packaging before
    anything is written: when [str.format] raises on the text of
    [README.md], the exception leaves [generate_package] after the read
    of that template, with no file written and no packaging command
    run. *)
Theorem generate_package_render_failure (args : Namespace) (dst : string) (s : state W)
    (template : string) (e : exn) (w1 : W) :
  0 ≤ arg_version args →
  plat_read_text (plat_script_dir (world s)) "README.md" (world s) = (Ret template, w1) →
  str_format template args = Raise e →
  generate_package args dst s =
    (Raise e,
     St w1 (log s ++ [ok (PrintLine "Generating NuGet package...");
                      ok (ReadText (plat_script_dir (world s)) "README.md")])).
Proof.
  intros Hversion Hread Hformat. unfold generate_package.
  destruct (Z.leb_spec 0 (arg_version args)) as [_ | Hneg]; [| lia].
  unfold print, script_dir, Path_read_text. unfold_run. cbn [for_each world log].
  unfold bind. cbn [world log]. rewrite Hread. cbn [raised]. rewrite Hformat.
  rewrite <- app_assoc. reflexivity.
Qed.

(** What the packaging step writes is what it read, rendered: a step
    that returns with a version of 0 or more has read [README.md] from
    the script's directory, written the [str.format] of the text read
    under the same name into the output directory, then done the same
    with the nuspec, fetched [nuget.exe] or not, and run the packaging
    command last, there; a negative version makes the step do nothing. *)
Theorem generate_package_writes_rendered (args : Namespace) (dst : string) (s s' : state W) :
  generate_package args dst s = (Ret (), s') →
  (arg_version args < 0 → s' = s) ∧
  (0 ≤ arg_version args →
   ∃ (readme nuspec readme_text nuspec_text : string) (w1 w2 w3 w4 : W)
     (fetched : list event),
     plat_read_text (plat_script_dir (world s)) "README.md" (world s) = (Ret readme, w1) ∧
     str_format readme args = Ret readme_text ∧
     plat_write_text dst "README.md" readme_text w1 = (Ret (), w2) ∧
     plat_read_text (plat_script_dir (world s)) "android-exe-launcher.nuspec" w2 =
       (Ret nuspec, w3) ∧
     str_format nuspec args = Ret nuspec_text ∧
     plat_write_text dst "android-exe-launcher.nuspec" nuspec_text w3 = (Ret (), w4) ∧
     (fetched = [] ∨
      fetched = [ok (UrlOpen nuget_url);
                 ok (Open (os_path_join (arg_dir args) ["nuget.exe"]) "wb");
                 ok (CopyFileObj nuget_url (os_path_join (arg_dir args) ["nuget.exe"]))]) ∧
     log s' = log s ++
       [ok (PrintLine "Generating NuGet package...");
        ok (ReadText (plat_script_dir (world s)) "README.md");
        ok (WriteText dst "README.md" readme_text);
        ok (ReadText (plat_script_dir (world s)) "android-exe-launcher.nuspec");
        ok (WriteText dst "android-exe-launcher.nuspec" nuspec_text)]
       ++ fetched
       ++ [ok (Run ["wine64"; os_path_join (arg_dir args) ["nuget.exe"]; "pack"] (Some dst))]).
Proof.
  unfold generate_package. intros Hrun.
  destruct (Z.leb_spec 0 (arg_version args)) as [Hpos | Hneg].
  - split; [lia |]. intros _.
    apply bind_inv in Hrun as ([] & s0 & Hprint & Hrun).
    unfold print in Hprint. apply act_inv in Hprint as (w0 & Hw0 & Hs0).
    inversion Hw0; subst w0; clear Hw0.
    apply bind_inv in Hrun as (src & s0' & Hsrc & Hrun).
    unfold script_dir, query in Hsrc. inversion Hsrc; subst src s0'; clear Hsrc.
    apply bind_inv in Hrun as ([] & s1 & Hloop & Hrun).
    cbn [for_each] in Hloop.
    apply bind_inv in Hloop as ([] & sa & Hreadme & Hloop).
    apply bind_inv in Hreadme as (readme & sa1 & Hread1 & Hreadme).
    apply bind_inv in Hreadme as (readme_text & sa2 & Hfmt1 & Hwrite1).
    apply bind_inv in Hloop as ([] & sb & Hnuspec & Hloop).
    apply bind_inv in Hnuspec as (nuspec & sb1 & Hread2 & Hnuspec).
    apply bind_inv in Hnuspec as (nuspec_text & sb2 & Hfmt2 & Hwrite2).
    unfold ret in Hloop. inversion Hloop; subst s1; clear Hloop.
    unfold lift in Hfmt1, Hfmt2. inversion Hfmt1; subst sa2. inversion Hfmt2; subst sb2.
    unfold Path_read_text in Hread1, Hread2. unfold Path_write_text in Hwrite1, Hwrite2.
    apply act_inv in Hread1 as (w1 & Hw1 & Hsa1).
    apply act_inv in Hwrite1 as (w2 & Hw2 & Hsa).
    apply act_inv in Hread2 as (w3 & Hw3 & Hsb1).
    apply act_inv in Hwrite2 as (w4 & Hw4 & Hsb).
    subst s0 sa1 sa sb1. cbn [world log] in *.
    apply bind_inv in Hrun as (isfile & sc & Hq & Hrun).
    unfold os_path_isfile, query in Hq. inversion Hq; subst sc; clear Hq.
    apply bind_inv in Hrun as ([] & sd & Hfetch & Hrun).
    apply bind_inv in Hrun as (code & se & Hwine & Hret).
    unfold ret in Hret. inversion Hret; subst se; clear Hret.
    apply act_log in Hwine.
    assert (Hfetched : ∃ fetched, log sd = log sb ++ fetched ∧
              (fetched = [] ∨
               fetched = [ok (UrlOpen nuget_url);
                          ok (Open (os_path_join (arg_dir args) ["nuget.exe"]) "wb");
                          ok (CopyFileObj nuget_url
                                (os_path_join (arg_dir args) ["nuget.exe"]))])).
    { destruct isfile; cbn [negb] in Hfetch.
      - unfold ret in Hfetch. inversion Hfetch; subst sd. exists [].
        rewrite app_nil_r. auto.
      - unfold fetch in Hfetch.
        apply bind_inv in Hfetch as ([] & f1 & Hurl & Hfetch).
        apply bind_inv in Hfetch as ([] & f2 & Hopen & Hcopy).
        apply act_log in Hurl. apply act_log in Hopen. apply act_log in Hcopy.
        eexists. split; [| right; reflexivity].
        rewrite Hcopy, Hopen, Hurl, <- !app_assoc. reflexivity. }
    destruct Hfetched as (fetched & Hlog & Hshape).
    exists readme, nuspec, readme_text, nuspec_text, w1, w2, w3, w4, fetched.
    repeat (split; [assumption |]).
    rewrite Hwine, Hlog, Hsb.
    cbn [world log]. rewrite <- !app_assoc. reflexivity.
  - split; [| lia]. intros _. unfold ret in Hrun. inversion Hrun. reflexivity.
Qed.

(** *** The top level *)

Lemma lookup_system_image_path (sdk abi : string) (api : Z) (s s1 : state W)
    (path : string) (found : Z) :
  lookup_system_image sdk abi api s = (Ret (Some path, found), s1) →
  path = os_path_join (system_image_dir sdk abi api) ["system.img"] ∧
  plat_isfile path (world s1) = true.
Proof.
  unfold lookup_system_image, os_path_isfile. intros Hrun.
  apply bind_inv in Hrun as (prop & s0 & _ & Hrun).
  apply bind_inv in Hrun as (r & s2 & Hrev & Hrun).
  unfold lift in Hrev. inversion Hrev; subst; clear Hrev.
  unfold_run. cbn in Hrun.
  destruct (plat_isfile _ (world s2)) eqn:Hfile; inversion Hrun; subst; auto.
Qed.

(** After lines 134-143 an image taken from the SDK always comes with
    a nonzero revision in [args.rev]: it is the revision that the lookup
    in the SDK returned with that image, it agrees with the revision
    asked for unless none was asked for, and the image is [system.img] in
    the SDK's image directory; the block has done nothing but that
    lookup. *)
Theorem lookup_in_sdk_usable (args args' : Namespace) (s s' : state W) (path : string) :
  lookup_in_sdk args s = (Ret (Some (Some path), args'), s') →
  arg_rev args' ≠ 0 ∧
  (arg_rev args = 0 ∨ arg_rev args = arg_rev args') ∧
  args' = set_rev args (arg_rev args') ∧
  ∃ sdk, arg_sdk args = Some sdk ∧
         lookup_system_image sdk (arg_abi args) (arg_api args) s =
           (Ret (Some path, arg_rev args'), s') ∧
         path = os_path_join (system_image_dir sdk (arg_abi args) (arg_api args)) ["system.img"].
Proof.
  unfold lookup_in_sdk. destruct (arg_sdk args) as [sdk |] eqn:Hsdk; [| discriminate].
  intros Hrun. apply bind_inv in Hrun as ([img found] & s1 & Hlook & Hrun).
  destruct (Z.eqb_spec found 0) as [-> | Hfound]; cbn [orb] in Hrun.
  - unfold print in Hrun. unfold_run. cbn in Hrun. inversion Hrun.
  - destruct img as [image |]; cbn [is_None] in Hrun.
    + destruct (Z.eqb_spec (arg_rev args) 0) as [Hzero | Hasked]; cbn [negb andb] in Hrun.
      * unfold_run. cbn in Hrun. inversion Hrun; subst. cbn.
        pose proof Hlook as Hpath. apply lookup_system_image_path in Hpath as [Hpath _].
        eauto 10.
      * destruct (Z.eqb_spec (arg_rev args) found) as [Hsame | Hother]; cbn [negb] in Hrun.
        -- unfold_run. cbn in Hrun. inversion Hrun; subst. cbn.
           pose proof Hlook as Hpath. apply lookup_system_image_path in Hpath as [Hpath _].
           eauto 10.
        -- unfold print in Hrun. unfold_run. cbn in Hrun. inversion Hrun.
    + unfold print in Hrun. unfold_run. cbn in Hrun. inversion Hrun.
Qed.

(** Lines 134-147: when the SDK holds no usable image (its revision
    reads as 0 or [system.img] is missing) and no revision was asked
    for, [main] prints the two messages and exits with status 1; nothing
    is downloaded. *)
Theorem main_exits_without_revision (args args1 : Namespace) (s s1 : state W)
    (sdk : string) (img : option string) (found : Z) :
  resolve_sdk args s = (Ret args1, s) →
  arg_sdk args1 = Some sdk →
  lookup_system_image sdk (arg_abi args1) (arg_api args1) s = (Ret (img, found), s1) →
  found = 0 ∨ img = None →
  arg_rev args1 = 0 →
  main args s =
    (Raise (SystemExit 1),
     St (world s1)
        (log s1 ++ [ok (PrintLine ("No system image " ++ arg_abi args1 ++ " android-"
                                   ++ str_of_int (arg_api args1) ++ " in SDK")%string);
                    ok (PrintLine "Please provide system image revision number to download")])).
Proof.
  intros Hresolve Hsdk Hlook Hunusable Hrev.
  unfold main. unfold bind at 1. rewrite Hresolve.
  unfold os_path_abspath. unfold bind at 1. unfold query at 1.
  unfold lookup_in_sdk. cbn [arg_sdk set_dir arg_abi arg_api arg_rev]. rewrite Hsdk.
  unfold bind at 1. unfold bind at 1. rewrite Hlook.
  assert (Htest : (found =? 0) || is_None img = true).
  { destruct Hunusable as [-> | ->]; [reflexivity | apply orb_true_r]. }
  rewrite Htest. unfold print. unfold_run. cbn. rewrite Hrev. cbn.
  rewrite <- app_assoc. reflexivity.
Qed.

(** Lines 134-162: when the SDK holds the image with a nonzero revision
    that agrees with the one asked for, or none was asked for, [main]
    downloads and extracts nothing: it goes straight to the mount/copy
    step on the SDK's image, with the output directory named after the
    SDK's revision. *)
Theorem main_uses_sdk_image (args args1 : Namespace) (s s1 : state W)
    (sdk path : string) (found : Z) :
  resolve_sdk args s = (Ret args1, s) →
  arg_sdk args1 = Some sdk →
  lookup_system_image sdk (arg_abi args1) (arg_api args1) s = (Ret (Some path, found), s1) →
  found ≠ 0 →
  arg_rev args1 = 0 ∨ arg_rev args1 = found →
  main args s =
    (print "Mounting image and copying..." ;;
     mount_img_and_copy path
       (os_path_join (plat_abspath (arg_dir args1) (world s))
          [("android-" ++ str_of_int (arg_api args1) ++ "_r" ++ format_02d found)%string;
           arg_abi args1]) ;;
     print ("Successfully copied to " ++
            os_path_join (plat_abspath (arg_dir args1) (world s))
              [("android-" ++ str_of_int (arg_api args1) ++ "_r" ++ format_02d found)%string;
               arg_abi args1])%string ;;
     generate_package
       (set_rev (set_dir args1 (plat_abspath (arg_dir args1) (world s))) found)
       (os_path_join (plat_abspath (arg_dir args1) (world s))
          [("android-" ++ str_of_int (arg_api args1) ++ "_r" ++ format_02d found)%string;
           arg_abi args1])) s1.
Proof.
  intros Hresolve Hsdk Hlook Hfound Hrev.
  unfold main. unfold bind at 1. rewrite Hresolve.
  unfold os_path_abspath. unfold bind at 1. unfold query at 1.
  unfold lookup_in_sdk. cbn [arg_sdk set_dir arg_abi arg_api arg_rev]. rewrite Hsdk.
  unfold bind at 1. unfold bind at 1. rewrite Hlook.
  destruct (Z.eqb_spec found 0) as [? | _]; [contradiction |].
  cbn [orb is_None].
  assert (Htest : negb (arg_rev args1 =? 0) && negb (arg_rev args1 =? found) = false).
  { destruct Hrev as [-> | ->]; [reflexivity |]. rewrite Z.eqb_refl. apply andb_false_r. }
  rewrite Htest. unfold bind at 1. unfold ret at 1. unfold ret at 1.
  cbn [is_None]. unfold bind at 1. unfold local, ret at 1.
  cbn [is_None andb]. unfold bind at 1. unfold ret at 1.
  unfold bind at 1. unfold ret at 1.
  cbn [arg_dir arg_abi arg_api arg_rev set_rev set_dir]. reflexivity.
Qed.

(** Lines 139-158: when the SDK's image has a nonzero revision other
    than the nonzero one asked for, [main] says so, drops the SDK's
    image, and goes on to download and extract the package of the
    revision asked for, which also names the output directory. *)
Theorem main_downloads_on_mismatch (args args1 : Namespace) (s s1 : state W)
    (sdk path : string) (found : Z) :
  resolve_sdk args s = (Ret args1, s) →
  arg_sdk args1 = Some sdk →
  lookup_system_image sdk (arg_abi args1) (arg_api args1) s = (Ret (Some path, found), s1) →
  found ≠ 0 →
  arg_rev args1 ≠ 0 →
  arg_rev args1 ≠ found →
  main args s =
    (img <- download_and_extract (set_dir args1 (plat_abspath (arg_dir args1) (world s)))
              (str_of_int (arg_api args1) ++ "_r" ++ format_02d (arg_rev args1))%string ;;
     print "Mounting image and copying..." ;;
     mount_img_and_copy img
       (os_path_join (plat_abspath (arg_dir args1) (world s))
          [("android-" ++ str_of_int (arg_api args1) ++ "_r"
            ++ format_02d (arg_rev args1))%string; arg_abi args1]) ;;
     print ("Successfully copied to " ++
            os_path_join (plat_abspath (arg_dir args1) (world s))
              [("android-" ++ str_of_int (arg_api args1) ++ "_r"
                ++ format_02d (arg_rev args1))%string; arg_abi args1])%string ;;
     generate_package (set_dir args1 (plat_abspath (arg_dir args1) (world s)))
       (os_path_join (plat_abspath (arg_dir args1) (world s))
          [("android-" ++ str_of_int (arg_api args1) ++ "_r"
            ++ format_02d (arg_rev args1))%string; arg_abi args1]))
      (St (world s1)
          (log s1 ++ [ok (PrintLine ("Required system image revision is "
                                     ++ str_of_int (arg_rev args1) ++ " but "
                                     ++ str_of_int found ++ " in SDK")%string)])).
Proof.
  intros Hresolve Hsdk Hlook Hfound Hasked Hother.
  unfold main. unfold bind at 1. rewrite Hresolve.
  unfold os_path_abspath. unfold bind at 1. unfold query at 1.
  unfold lookup_in_sdk. cbn [arg_sdk set_dir arg_abi arg_api arg_rev]. rewrite Hsdk.
  unfold bind at 1. unfold bind at 1. rewrite Hlook.
  destruct (Z.eqb_spec found 0) as [? | _]; [contradiction |].
  destruct (Z.eqb_spec (arg_rev args1) 0) as [? | _]; [contradiction |].
  destruct (Z.eqb_spec (arg_rev args1) found) as [? | _]; [contradiction |].
  cbn [orb is_None negb andb].
  unfold bind at 1. unfold bind at 1. unfold print at 1. unfold act at 1. cbn [raised].
  unfold ret at 1. unfold ret at 1. cbn [is_None].
  unfold bind at 1. unfold local, ret at 1.
  cbn [is_None andb]. unfold bind at 1.
  cbn [arg_dir arg_abi arg_api arg_rev set_rev set_dir world log].
  destruct (Z.eqb_spec (arg_rev args1) 0) as [? | _]; [contradiction |].
  unfold ret at 1. reflexivity.
Qed.

(** Lines 151-158: a package that does not deliver is fatal. When the
    extractor returns no image, or a revision other than the one asked
    for, [main]'s download step prints the failure and exits with
    status 1. *)
Theorem download_and_extract_mismatch (args : Namespace) (ver : string)
    (s s1 s2 : state W) (package : string) (img : option string) (found : Z) :
  download_system_package (arg_dir args) (arg_abi args) (arg_api args) (arg_rev args)
    (St (world s) (log s ++ [ok (PrintLine "Downloading package...")])) = (Ret package, s1) →
  extract_system_package package (arg_abi args)
    (os_path_join (arg_dir args) [("android-" ++ ver)%string])
    (St (world s1) (log s1 ++ [ok (PrintLine "Extracting package...")])) = (Ret (img, found), s2) →
  img = None ∨ arg_rev args ≠ found →
  download_and_extract args ver s =
    (Raise (SystemExit 1),
     St (world s2) (log s2 ++ [ok (PrintLine "Download/Extract system package failed")])).
Proof.
  intros Hdownload Hextract Hbad. unfold download_and_extract.
  unfold bind at 1. unfold print at 1. unfold act at 1. cbn [raised].
  fold (ok (PrintLine "Downloading package...")).
  unfold bind at 1. rewrite Hdownload.
  unfold bind at 1. unfold print at 1. unfold act at 1. cbn [raised].
  fold (ok (PrintLine "Extracting package...")).
  unfold bind at 1. rewrite Hextract.
  destruct img as [path |].
  - destruct Hbad as [? | Hbad]; [discriminate |].
    destruct (Z.eqb_spec (arg_rev args) found) as [? | _]; [contradiction |].
    reflexivity.
  - reflexivity.
Qed.

(** The other way round: a path that the download step returns is the
    image of a package whose own revision is the one asked for. *)
Theorem download_and_extract_revision (args : Namespace) (ver : string)
    (s s' : state W) (path : string) :
  download_and_extract args ver s = (Ret path, s') →
  ∃ (package : string) (s1 s2 : state W),
    extract_system_package package (arg_abi args)
      (os_path_join (arg_dir args) [("android-" ++ ver)%string]) s1
      = (Ret (Some path, arg_rev args), s2) ∧
    world s' = world s2 ∧ log s' = log s2.
Proof.
  unfold download_and_extract. intros Hrun.
  apply bind_inv in Hrun as ([] & sa & _ & Hrun).
  apply bind_inv in Hrun as (package & sb & _ & Hrun).
  apply bind_inv in Hrun as ([] & sc & _ & Hrun).
  apply bind_inv in Hrun as ([img found] & sd & Hextract & Hrun).
  destruct img as [image |].
  - destruct (Z.eqb_spec (arg_rev args) found) as [<- | _]; cbn [negb] in Hrun.
    + inversion Hrun; subst. eauto 10.
    + apply bind_inv in Hrun as ([] & se & _ & Hexit). discriminate.
  - apply bind_inv in Hrun as ([] & se & _ & Hexit). discriminate.
Qed.

(** An ABI given as an absolute path takes the locator out of the SDK:
    [os.path.join] drops what precedes an absolute component, so the
    image directory is the ABI itself and neither the SDK root nor the
    API level matters. *)
Theorem lookup_absolute_abi (sdk sdk' abi : string) (api api' : Z) :
  startswith "/" abi = true →
  system_image_dir sdk abi api = abi ∧
  lookup_system_image sdk abi api = (lookup_system_image sdk' abi api' : M W _).
Proof.
  intros Habs.
  assert (Hdir : ∀ root level, system_image_dir root abi level = abi).
  { intros root level. unfold system_image_dir, os_path_join. cbn [fold_left].
    unfold join2 at 1. rewrite Habs. reflexivity. }
  split; [apply Hdir |]. unfold lookup_system_image. rewrite !Hdir. reflexivity.
Qed.

End Coverage.

(** ** Further runs on the simulated platform *)

(** A step on an output tree whose mount directory exists: it is
    unmounted and kept. *)
Lemma mount_keeps_existing_directory_witness :
  plat_isdir (os_path_join dst_A ["mount"]) with_mount_dir = true ∧
  ∃ evs : list event,
    log (snd (mount_img_and_copy img_A dst_A (start with_mount_dir))) = evs ∧
    forallb (fun e => keeps (os_path_join dst_A ["mount"]) (ev_call e)) evs = true.
Proof.
  split; [vm_compute; reflexivity |].
  destruct (mount_keeps_existing_directory (W := machine) img_A dst_A (start with_mount_dir))
    as (evs & Hlog & Hkeeps); [vm_compute; reflexivity |].
  exists evs. split; [exact Hlog | exact Hkeeps].
Defined.

(** A [source.properties] that is not text, and one that the parser
    rejects. *)
Lemma load_source_properties_propagates_witness :
  fst (load_source_properties builtins sdk_dir (start binary_properties)) =
    Raise (OtherError "UnicodeDecodeError") ∧
  fst (load_source_properties builtins sdk_dir (start garbled_properties)) =
    Raise ParsingError.
Proof.
  split.
  - destruct (load_source_properties_propagates (W := machine) sdk_dir
                (start binary_properties) (OtherError "UnicodeDecodeError"))
      as [Hopen _]; [discriminate |].
    apply (Hopen binary_properties). vm_compute. reflexivity.
  - destruct (load_source_properties_propagates (W := machine) sdk_dir
                (start garbled_properties) ParsingError) as [_ Hparse]; [discriminate |].
    apply (Hparse "garbage" garbled_properties); vm_compute; reflexivity.
Defined.

(** The SDK root [/opt/sdk] on a machine without an SDK. *)
Lemma lookup_without_properties_witness :
  fst (lookup_system_image "/opt/sdk" "arm64-v8a" 30 (start fresh)) = Ret (None, 0).
Proof.
  rewrite (lookup_without_properties (W := machine) "/opt/sdk" "arm64-v8a" 30
             (start fresh) fresh); vm_compute; reflexivity.
Defined.

(** The fetcher on the machine that reaches no server. *)
Lemma download_network_failure_witness :
  download_system_package "/work/out" "arm64-v8a" 30 5 (start offline) =
    (Raise URLError, St offline [Ev (UrlOpen package_r5_url) (Some URLError)]).
Proof.
  rewrite (download_network_failure (W := machine) "/work/out" "arm64-v8a" 30 5
             (start offline) URLError offline); vm_compute; reflexivity.
Defined.

(** The fetcher on the fresh machine. *)
Lemma download_fetches_in_order_witness :
  log (snd downloaded) =
    [ok (UrlOpen package_r5_url);
     ok (Open "/work/out/arm64-v8a-30_r05.zip" "wb");
     ok (CopyFileObj package_r5_url "/work/out/arm64-v8a-30_r05.zip")].
Proof.
  destruct (download_fetches_in_order (W := machine) "/work/out" "arm64-v8a" 30 5
              (start fresh) (snd downloaded) "/work/out/arm64-v8a-30_r05.zip")
    as [_ Hlog]; [vm_compute; reflexivity .. |].
  rewrite Hlog. reflexivity.
Defined.

(** The extractor on the package of revision 5 with the image already
    in place. *)
Lemma extract_skips_existing_image_witness :
  extract_system_package "/work/out/pkg.zip" "arm64-v8a" "/work/out/android-30_r05"
    (start cached_image) =
    (Ret (Some img_A, 5), St cached_image [ok (OpenZip "/work/out/pkg.zip")]).
Proof.
  rewrite (extract_skips_existing_image (W := machine) "/work/out/pkg.zip" "arm64-v8a"
             "/work/out/android-30_r05" (start cached_image) r5_zip cached_image r5_prop 5).
  - reflexivity.
  - vm_compute. reflexivity.
  - vm_compute. reflexivity.
  - vm_compute. reflexivity.
  - discriminate.
  - vm_compute. reflexivity.
Defined.

(** The extractor on the package of revision 5 with nothing extracted
    yet. *)
Lemma extract_checks_extracted_file_witness :
  fst (extract_system_package "/work/out/pkg.zip" "arm64-v8a" "/work/out/android-30_r05"
         (start unpacked)) = Ret (Some img_A, 5).
Proof.
  rewrite (extract_checks_extracted_file (W := machine) "/work/out/pkg.zip" "arm64-v8a"
             "/work/out/android-30_r05" (start unpacked) r5_zip unpacked
             (snd (sim_extract r5_zip "arm64-v8a/system.img" "/work/out/android-30_r05"
                     unpacked))
             r5_prop 5 "" img_A).
  - vm_compute. reflexivity.
  - vm_compute. reflexivity.
  - vm_compute. reflexivity.
  - vm_compute. reflexivity.
  - discriminate.
  - vm_compute. reflexivity.
  - vm_compute. reflexivity.
  - vm_compute. reflexivity.
Defined.

(** The extractor on the package that holds properties only. *)
Lemma extract_missing_image_witness :
  fst (extract_system_package "/work/out/pkg.zip" "arm64-v8a" "/work/out/android-30_r05"
         (start props_only)) = Raise (KeyError "arm64-v8a/system.img").
Proof.
  rewrite (extract_missing_image (W := machine) "/work/out/pkg.zip" "arm64-v8a"
             "/work/out/android-30_r05" (start props_only) props_only_zip props_only
             r5_prop 5).
  - reflexivity.
  - vm_compute. reflexivity.
  - vm_compute. reflexivity.
  - vm_compute. reflexivity.
  - discriminate.
  - vm_compute. reflexivity.
  - vm_compute. reflexivity.
Defined.

(** Copying the three libraries out of a directory that lacks
    [libm.so]: [libc.so] is copied, [libdl.so] is not. *)
Lemma cpy_stops_at_first_failure_witness :
  cpy "/work/out/lib64" "/src" ["libc.so"; "libm.so"; "libdl.so"] (start two_libs) =
    (Raise FileNotFoundError,
     St (world (snd (cpy "/work/out/lib64" "/src" ["libc.so"] (start two_libs))))
        [ok (Makedirs "/work/out/lib64" true);
         ok (Copy2 "/src/libc.so" "/work/out/lib64");
         Ev (Copy2 "/src/libm.so" "/work/out/lib64") (Some FileNotFoundError)]).
Proof.
  rewrite (cpy_stops_at_first_failure (W := machine) "/work/out/lib64" "/src" ["libc.so"]
             "libm.so" ["libdl.so"] (start two_libs)
             (snd (cpy "/work/out/lib64" "/src" ["libc.so"] (start two_libs)))
             FileNotFoundError
             (world (snd (cpy "/work/out/lib64" "/src" ["libc.so"] (start two_libs))))).
  - reflexivity.
  - vm_compute. reflexivity.
  - vm_compute. reflexivity.
Defined.

(** The APEX step on a machine where the APEX is missing: the
    temporary directory is made and cleaned up, and nothing is copied. *)
Lemma extract_apex_cleans_up_witness :
  ∃ r : option exn,
    log (snd (extract_apex_and_copy "/none.apex" "/work/out/system" (start fresh))) =
      [ok MkTemp;
       Ev (RunExtract "/none.apex" "/tmp/tmp0" "/usr/sbin/debugfs") (Some FileNotFoundError);
       Ev (Cleanup "/tmp/tmp0") r].
Proof.
  destruct (extract_apex_cleans_up (W := machine) "/none.apex" "/work/out/system"
              (start fresh) "/tmp/tmp0" (snd (sim_mkdtemp fresh)))
    as (evs & r & Hlog & Hraise); [vm_compute; reflexivity |].
  exists r. rewrite Hlog.
  rewrite (Hraise FileNotFoundError (snd (sim_mkdtemp fresh))); [reflexivity |].
  vm_compute. reflexivity.
Defined.

(** The packaging step with a readme template that names [{board}]. *)
Lemma generate_package_render_failure_witness :
  @generate_package machine Render.rendering args_out dst_A (start Render.bad_template) =
    (Raise (KeyError "board"),
     St Render.bad_template
        [ok (PrintLine "Generating NuGet package...");
         ok (ReadText "/opt/launcher" "README.md")]).
Proof.
  rewrite (@generate_package_render_failure machine Render.rendering args_out dst_A
             (start Render.bad_template) "Image {api} for {board}" (KeyError "board")
             Render.bad_template).
  - reflexivity.
  - vm_compute. discriminate.
  - vm_compute. reflexivity.
  - vm_compute. reflexivity.
Defined.

(** Lines 134-143 on the SDK with the image of revision 5, no revision
    asked for: the lookup returned revision 5, and 5 is in [args.rev]. *)
Lemma lookup_in_sdk_usable_witness :
  arg_rev args_sdk_any = 0 ∧
  ∃ args' s', lookup_in_sdk args_sdk_any (start with_sdk) =
                (Ret (Some (Some (sdk_dir ++ "/system.img")%string), args'), s') ∧
              lookup_system_image "/opt/sdk" "arm64-v8a" 30 (start with_sdk) =
                (Ret (Some (sdk_dir ++ "/system.img")%string, 5), s') ∧
              arg_rev args' = 5.
Proof.
  split; [reflexivity |].
  exists (set_rev args_sdk_any 5), (snd (lookup_in_sdk args_sdk_any (start with_sdk))).
  assert (Hrun : lookup_in_sdk args_sdk_any (start with_sdk) =
                 (Ret (Some (Some (sdk_dir ++ "/system.img")%string), set_rev args_sdk_any 5),
                  snd (lookup_in_sdk args_sdk_any (start with_sdk))))
    by (vm_compute; reflexivity).
  split; [exact Hrun |].
  destruct (lookup_in_sdk_usable (W := machine) _ _ _ _ _ Hrun)
    as (_ & _ & _ & sdk & Hsdk & Hlook & _).
  injection Hsdk as <-. split; [exact Hlook | reflexivity].
Defined.

(** [--sdk /opt/sdk] with no revision asked for, on the SDK without the
    image. *)
Lemma main_exits_without_revision_witness :
  fst (main args_sdk_any (start sdk_without_image)) = Raise (SystemExit 1).
Proof.
  rewrite (main_exits_without_revision (W := machine) args_sdk_any args_sdk_any
             (start sdk_without_image)
             (snd (lookup_system_image "/opt/sdk" "arm64-v8a" 30 (start sdk_without_image)))
             "/opt/sdk" None 5).
  - reflexivity.
  - vm_compute. reflexivity.
  - reflexivity.
  - vm_compute. reflexivity.
  - right. reflexivity.
  - reflexivity.
Defined.

(** [--sdk /opt/sdk --rev 5] on the SDK with the image of revision 5:
    the first call after the lookup is the mount of the SDK's image. *)
Lemma main_uses_sdk_image_witness :
  List.map ev_call (firstn 4 (log (snd (main args_sdk (start with_sdk))))) =
    [Open (sdk_dir ++ "/source.properties")%string "r";
     PrintLine "Mounting image and copying...";
     Makedirs "/work/out/android-30_r05/arm64-v8a/mount" false;
     Run (mount_argv (sdk_dir ++ "/system.img")%string
            "/work/out/android-30_r05/arm64-v8a/mount") None].
Proof.
  rewrite (main_uses_sdk_image (W := machine) args_sdk args_sdk (start with_sdk)
             (snd (lookup_system_image "/opt/sdk" "arm64-v8a" 30 (start with_sdk)))
             "/opt/sdk" (sdk_dir ++ "/system.img")%string 5).
  - vm_compute. reflexivity.
  - vm_compute. reflexivity.
  - reflexivity.
  - vm_compute. reflexivity.
  - discriminate.
  - right. reflexivity.
Defined.

(** [--sdk /opt/sdk --rev 4] on the SDK with the image of revision 5:
    the download of revision 4 is attempted. *)
Lemma main_downloads_on_mismatch_witness :
  In (Ev (UrlOpen package_r4_url) (Some URLError))
     (log (snd (main args_sdk_r4 (start with_sdk)))).
Proof.
  rewrite (main_downloads_on_mismatch (W := machine) args_sdk_r4 args_sdk_r4 (start with_sdk)
             (snd (lookup_system_image "/opt/sdk" "arm64-v8a" 30 (start with_sdk)))
             "/opt/sdk" (sdk_dir ++ "/system.img")%string 5).
  - vm_compute. tauto.
  - vm_compute. reflexivity.
  - reflexivity.
  - vm_compute. reflexivity.
  - discriminate.
  - discriminate.
  - discriminate.
Defined.

(** Revision 4 asked for, revision 5 delivered. *)
Lemma download_and_extract_mismatch_witness :
  fst (download_and_extract args_out_r4 "30_r04" (start mislabeled)) = Raise (SystemExit 1).
Proof.
  erewrite (download_and_extract_mismatch (W := machine) args_out_r4 "30_r04"
              (start mislabeled)
              (snd (download_system_package "/work/out" "arm64-v8a" 30 4
                      (St mislabeled [ok (PrintLine "Downloading package...")])))
              (snd (extract_system_package "/work/out/arm64-v8a-30_r04.zip" "arm64-v8a"
                      "/work/out/android-30_r04"
                      (St (world (snd (download_system_package "/work/out" "arm64-v8a" 30 4
                                         (St mislabeled
                                            [ok (PrintLine "Downloading package...")]))))
                          (log (snd (download_system_package "/work/out" "arm64-v8a" 30 4
                                       (St mislabeled
                                          [ok (PrintLine "Downloading package...")])))
                           ++ [ok (PrintLine "Extracting package...")]))))
              "/work/out/arm64-v8a-30_r04.zip"
              (Some "/work/out/android-30_r04/arm64-v8a/system.img") 5).
  - reflexivity.
  - vm_compute. reflexivity.
  - vm_compute. reflexivity.
  - right. discriminate.
Defined.

(** Revision 5 asked for and delivered. *)
Lemma download_and_extract_revision_witness :
  ∃ (package : string) (s1 s2 : state machine),
    extract_system_package package "arm64-v8a" "/work/out/android-30_r05" s1 =
      (Ret (Some img_A, 5), s2).
Proof.
  destruct (download_and_extract_revision (W := machine) args_out "30_r05" (start fresh)
              (snd (download_and_extract args_out "30_r05" (start fresh))) img_A)
    as (package & s1 & s2 & Hextract & _); [vm_compute; reflexivity |].
  exists package, s1, s2. exact Hextract.
Defined.

(** The ABI [/etc] with two SDK roots and API levels. *)
Lemma lookup_absolute_abi_witness :
  system_image_dir "/opt/sdk" "/etc" 30 = "/etc" ∧
  lookup_system_image "/opt/sdk" "/etc" 30 (start fresh) =
    lookup_system_image "/other" "/etc" 31 (start fresh).
Proof.
  destruct (lookup_absolute_abi (W := machine) "/opt/sdk" "/other" "/etc" 30 31 eq_refl)
    as [Hdir Hsame].
  split; [exact Hdir | rewrite Hsame; reflexivity].
Defined.

(** The linker missing from the extracted APEX. *)
Lemma copy_from_apex_linker_failure_witness :
  copy_from_apex "/apex" "/work/out/system" (start no_linker) =
    (Raise FileNotFoundError,
     St (snd (sim_makedirs "/work/out/system/bin" true no_linker))
        [ok (Makedirs "/work/out/system/bin" true);
         Ev (Copy2 "/apex/bin/linker64" "/work/out/system/bin") (Some FileNotFoundError)]).
Proof.
  rewrite (copy_from_apex_linker_failure (W := machine) "/apex" "/work/out/system"
             (start no_linker) FileNotFoundError
             (snd (sim_makedirs "/work/out/system/bin" true no_linker))
             (snd (sim_makedirs "/work/out/system/bin" true no_linker))).
  - reflexivity.
  - vm_compute. reflexivity.
  - vm_compute. reflexivity.
Defined.

(** The packaging step on the output tree with [nuget.exe] in place, on
    the platform that renders the templates: what is written is the
    template read with the arguments filled in. *)
Lemma generate_package_writes_rendered_witness :
  sim_read_text "/opt/launcher" "README.md" Render.templates =
    (Ret "Image android-{api} r{rev} for {abi}", Render.templates) ∧
  log (snd (@generate_package machine Render.rendering args_out dst_A
              (start Render.templates))) =
    [ok (PrintLine "Generating NuGet package...");
     ok (ReadText "/opt/launcher" "README.md");
     ok (WriteText dst_A "README.md" "Image android-30 r5 for arm64-v8a");
     ok (ReadText "/opt/launcher" "android-exe-launcher.nuspec");
     ok (WriteText dst_A "android-exe-launcher.nuspec" "<version>1</version>");
     ok (Run ["wine64"; "/work/out/nuget.exe"; "pack"] (Some dst_A))].
Proof.
  split; [vm_compute; reflexivity |].
  destruct (@generate_package_writes_rendered machine Render.rendering args_out dst_A
              (start Render.templates)
              (snd (@generate_package machine Render.rendering args_out dst_A
                      (start Render.templates))))
    as [_ Hlog]; [vm_compute; reflexivity |].
  destruct Hlog as (readme & nuspec & readme_text & nuspec_text & w1 & w2 & w3 & w4 & fetched
                    & Hread1 & Hfmt1 & Hwrite1 & Hread2 & Hfmt2 & Hwrite2 & Hfetched & Hlog);
    [vm_compute; discriminate |].
  clear Hwrite2.
  vm_compute in Hread1. injection Hread1 as <- <-.
  vm_compute in Hfmt1. injection Hfmt1 as <-.
  vm_compute in Hwrite1. injection Hwrite1 as <-.
  vm_compute in Hread2. injection Hread2 as <- <-.
  vm_compute in Hfmt2. injection Hfmt2 as <-.
  destruct Hfetched as [-> | ->].
  - rewrite Hlog. vm_compute. reflexivity.
  - vm_compute in Hlog. discriminate Hlog.
Defined.
